(** * snapborg: snapper.py

    A shallow embedding of [snapborg/snapper.py]: the wrapper around the
    [snapper] command line tool, the per-snapshot backup tag stored in the
    snapshot's userdata, and the context manager that switches the cleanup
    algorithm of a set of snapshots off and back on.

    Python objects become records, the process-wide state (the function
    attribute [run_snapper.snapper_version_ok], the commands handed to
    [subprocess.check_output], the lines written by [print]) becomes a
    [World] threaded through a state-and-exception monad, and the external
    tool together with the library functions applied to its output becomes
    an [Env] the development is parametric in. *)

From stdpp Require Import gmap strings list fin_maps.
From Stdlib Require Import ZArith DecimalString Ascii String.
From Stdlib Require DecimalPos DecimalZ.

Open Scope string_scope.
Open Scope list_scope.
Open Scope Z_scope.
Open Scope nat_scope.

(** ** Python string primitives *)

Module PyStr.

(** [s.startswith(p)] *)
Definition startswith (s p : string) : bool := String.prefix p s.

(** [s.replace(old, new)]: every non-overlapping occurrence of [old], found
    scanning from the left, is replaced by [new].  [skip] counts the
    characters of a matched occurrence that are still to be dropped.  For an
    empty [old] Python puts [new] before every character and at the end. *)
Fixpoint replace_from (old new : string) (skip : nat) (s : string) : string :=
  match s with
  | EmptyString => EmptyString
  | String c r =>
      match skip with
      | S k => replace_from old new k r
      | O =>
          if String.prefix old s
          then new +:+ replace_from old new (String.length old - 1) r
          else String c (replace_from old new 0 r)
      end
  end.

Fixpoint intersperse_str (new s : string) : string :=
  match s with
  | EmptyString => new
  | String c r => new +:+ String c (intersperse_str new r)
  end.

Definition replace (old new s : string) : string :=
  match old with
  | EmptyString => intersperse_str new s
  | _ => replace_from old new 0 s
  end.

(** [s.split(sep)] for a separator of one character: never the empty list,
    and empty fields are kept. *)
Fixpoint split (sep : ascii) (s : string) : list string :=
  match s with
  | EmptyString => [EmptyString]
  | String c r =>
      if Ascii.eqb c sep then EmptyString :: split sep r
      else match split sep r with
           | [] => [String c EmptyString]
           | h :: t => String c h :: t
           end
  end.

(** [sep.join(l)] *)
Definition join (sep : string) (l : list string) : string := String.concat sep l.

(** [x in l] for a list of strings *)
Definition contains (x : string) (l : list string) : bool :=
  existsb (String.eqb x) l.

(** [p in s] for strings: [p] occurs in [s] *)
Fixpoint occurs (p s : string) : bool :=
  String.prefix p s ||
  match s with
  | EmptyString => false
  | String _ r => occurs p r
  end.

(** [f"{n}"] for an integer *)
Definition of_int (n : Z) : string := NilZero.string_of_int (Z.to_int n).

End PyStr.

(** ** Data *)

(** The borg repository a configuration is backed up to; only its
    [repopath] is read here. *)
Record Repo := { repopath : string }.

(** One record of [snapper list --jsonout]: [userdata] is [null] or a
    mapping. *)
Record Info := {
  number : Z;
  date : string;
  userdata : option (gmap string string);
  cleanup : string
}.

(** What [json.loads] yields for the two commands whose output is read: the
    snapshot records per configuration name for [list], the settings for
    [get-config]. *)
Inductive Json :=
| JList (m : gmap string (list Info))
| JSettings (m : gmap string string).

(** The attributes [SnapperConfig.__init__] assigns once. *)
Record ConfigAttrs := {
  name : string;
  settings : option Json;
  repo : Repo
}.

(** A [SnapperSnapshot] object.  [config] stands for the reference to the
    owning configuration, through which only the attributes assigned once
    are read. *)
Record SnapperSnapshot := {
  config : ConfigAttrs;
  info : Info;
  _is_remote : bool;
  _is_backed_up : bool;
  _existing_backup_val : string;
  _cleanup : string
}.

(** A [SnapperConfig] object: [_snapshots] is [None] until the list has been
    loaded. *)
Record SnapperConfig := {
  attrs : ConfigAttrs;
  _snapshots : option (list SnapperSnapshot)
}.

(** ** The process and its environment *)

Inductive Exn :=
| CalledProcessError (cmd : list string)
| JSONDecodeError
| IndexError
| InvalidVersion (v : string)
| TypeError
| KeyError (k : string)
| Exception (msg : string).

(** What the process does to the outside, in order: a command run through
    [subprocess.check_output], or a command written by [print]. *)
Inductive Event :=
| Exec (args : list string)
| Print (args : list string).

Record World := {
  snapper_version_ok : bool;
  trace : list Event
}.

(** The external tool and the library functions applied to its output.
    [check_output] answers a command after a given history ([None]: the
    call raised); [json_loads] is [None] for a parse error; [version_lt a b]
    is [version.parse(a) < version.parse(b)], [None] when a version does not
    parse. *)
Record Env := {
  check_output : list Event -> list string -> option string;
  splitlines : string -> list string;
  strip : string -> string;
  json_loads : string -> option Json;
  version_lt : string -> string -> option bool
}.

Inductive Result (A : Type) :=
| Return (a : A)
| Raise (e : Exn).
Arguments Return {A} a.
Arguments Raise {A} e.

Definition M (A : Type) : Type := World -> Result A * World.

Definition ret {A} (a : A) : M A := fun w => (Return a, w).

Definition raise {A} (e : Exn) : M A := fun w => (Raise e, w).

Definition bind {A B} (m : M A) (k : A -> M B) : M B := fun w =>
  match m w with
  | (Return a, w1) => k a w1
  | (Raise e, w1) => (Raise e, w1)
  end.

Declare Scope py_scope.
Delimit Scope py_scope with py.
Notation "x <- m ;; k" := (bind m (fun x => k))
  (at level 100, m at next level, right associativity) : py_scope.
Notation "m ;;; k" := (bind m (fun _ => k))
  (at level 100, right associativity) : py_scope.
Open Scope py_scope.

(** [try: body finally: fin]: [fin] runs however [body] ends; an exception
    of [fin] replaces the outcome of [body]. *)
Definition try_finally {A} (body : M A) (fin : M unit) : M A := fun w =>
  match body w with
  | (r, w1) =>
      match fin w1 with
      | (Return _, w2) => (r, w2)
      | (Raise e, w2) => (Raise e, w2)
      end
  end.

(** [for x in l: f(x)] *)
Fixpoint for_each {A} (l : list A) (f : A -> M unit) : M unit :=
  match l with
  | [] => ret tt
  | x :: r => f x ;;; for_each r f
  end.

Definition emit (e : Event) (w : World) : World :=
  {| snapper_version_ok := snapper_version_ok w; trace := trace w ++ [e] |}.

Definition set_version_ok (w : World) : World :=
  {| snapper_version_ok := true; trace := trace w |}.

(** ** Module-level functions *)

Section Snapper.

Variable E : Env.

(** [subprocess.check_output(cmd).decode()] *)
Definition subprocess_check_output (cmd : list string) : M string := fun w =>
  match check_output E (trace w) cmd with
  | Some out => (Return out, emit (Exec cmd) w)
  | None => (Raise (CalledProcessError cmd), emit (Exec cmd) w)
  end.

Definition print (args : list string) : M unit := fun w =>
  (Return tt, emit (Print args) w).

Definition check_snapper : M unit :=
  output <- subprocess_check_output ["snapper"; "--version"] ;;
  match List.filter (fun l => PyStr.startswith l "snapper") (splitlines E output) with
  | [] => raise IndexError
  | line :: _ =>
      match PyStr.split " " line !! 1 with
      | None => raise IndexError
      | Some snapper_version =>
          match version_lt E snapper_version "0.8.6" with
          | None => raise (InvalidVersion snapper_version)
          | Some true =>
              raise (Exception ("Snapper version " +:+ snapper_version +:+ " is too old!"))
          | Some false => ret tt
          end
      end
  end.

(** [args_new] of [run_snapper] *)
Definition args_new (args : list string) (config : option string) : list string :=
  "snapper" ::
  match config with
  | None | Some EmptyString => []
  | Some c => ["-c"; c]
  end ++ "--jsonout" :: args.

Definition run_snapper (args : list string) (config : option string) (dryrun : bool)
  : M (option Json) :=
  (fun w =>
     if snapper_version_ok w then (Return tt, w)
     else match check_snapper w with
          | (Return _, w1) => (Return tt, set_version_ok w1)
          | (Raise e, w1) => (Raise e, w1)
          end) ;;;
  let args_new := args_new args config in
  if dryrun then print args_new ;;; ret None
  else
    out <- subprocess_check_output args_new ;;
    let output := strip E out in
    if String.eqb output "" then ret None
    else match json_loads E output with
         | Some j => ret (Some j)
         | None => raise JSONDecodeError
         end.

End Snapper.

(** ** Settings *)

(** What subscripting the settings yields: a string, or, when the value
    [run_snapper] returned held snapshot records, a list of them. *)
Inductive Value :=
| VStr (s : string)
| VRecords (l : list Info).

(** [settings[key]]: [TypeError] when [run_snapper] returned [None],
    [KeyError] when the key is missing. *)
Definition settings_item (settings : option Json) (key : string) : Result Value :=
  match settings with
  | None => Raise TypeError
  | Some (JSettings m) =>
      match m !! key with
      | Some v => Return (VStr v)
      | None => Raise (KeyError key)
      end
  | Some (JList m) =>
      match m !! key with
      | Some l => Return (VRecords l)
      | None => Raise (KeyError key)
      end
  end.

(** ** class SnapperSnapshot *)

Module SnapperSnapshot.

(** [(info["userdata"] or dict()).get("snapborg_backup", "")] *)
Definition stored_tag (info : Info) : string :=
  default "" (default ∅ (userdata info) !! "snapborg_backup").

(** [sb_backup_vals] of [__init__] *)
Definition sb_backup_vals (info : Info) : list string :=
  PyStr.split ":" (PyStr.replace "true" "local" (stored_tag info)).

Definition init (config : ConfigAttrs) (info : Info) : SnapperSnapshot :=
  let is_remote := PyStr.startswith (repopath (repo config)) "ssh://" in
  {| config := config;
     info := info;
     _is_remote := is_remote;
     _is_backed_up :=
       PyStr.contains (if is_remote then "remote" else "local") (sb_backup_vals info);
     _existing_backup_val := PyStr.join ":" (sb_backup_vals info);
     _cleanup := cleanup info |}.

Definition is_backed_up (self : SnapperSnapshot) : bool := _is_backed_up self.

Definition get_number (self : SnapperSnapshot) : Z := number (info self).

(** The value [set_backed_up] stores under [snapborg_backup]. *)
Definition new_sb_backup_val (self : SnapperSnapshot) : string :=
  let new_sb_backup_val := if _is_remote self then "remote" else "local" in
  if String.eqb (_existing_backup_val self) "" then new_sb_backup_val
  else _existing_backup_val self +:+ ":" +:+ new_sb_backup_val.

(** [self._is_backed_up = v] *)
Definition assign_is_backed_up (self : SnapperSnapshot) (v : bool) : SnapperSnapshot :=
  {| config := config self;
     info := info self;
     _is_remote := _is_remote self;
     _is_backed_up := v;
     _existing_backup_val := _existing_backup_val self;
     _cleanup := _cleanup self |}.

Section Path.

(** [str(l)] for a list of records, which is what the f-string of
    [get_path] puts for a subvolume that is such a list. *)
Variable format_records : list Info -> string.

Definition format_value (v : Value) : string :=
  match v with
  | VStr s => s
  | VRecords l => format_records l
  end.

(** [f"{self.config.get_path()}/.snapshots/{self.get_number()}/snapshot"] *)
Definition get_path (self : SnapperSnapshot) : Result string :=
  match settings_item (settings (config self)) "SUBVOLUME" with
  | Return p =>
      Return (format_value p +:+ "/.snapshots/" +:+ PyStr.of_int (get_number self)
              +:+ "/snapshot")
  | Raise e => Raise e
  end.

End Path.

Section Methods.

Variable E : Env.

(** The two methods that write the tag return the object as the call leaves
    it: [purge_userdata] assigns no attribute, [set_backed_up] assigns
    [_is_backed_up]. *)
Definition purge_userdata (self : SnapperSnapshot) (dryrun : bool) : M SnapperSnapshot :=
  run_snapper E
    ["modify"; "--userdata"; "snapborg_backup="; PyStr.of_int (get_number self)]
    (Some (name (config self))) dryrun ;;; ret self.

Definition set_backed_up (self : SnapperSnapshot) (dryrun : bool) : M SnapperSnapshot :=
  run_snapper E
    ["modify"; "--userdata"; "snapborg_backup=" +:+ new_sb_backup_val self;
     PyStr.of_int (get_number self)]
    (Some (name (config self))) dryrun ;;;
  ret (assign_is_backed_up self true).

Definition prevent_cleanup (self : SnapperSnapshot) (dryrun : bool) : M unit :=
  run_snapper E
    ["modify"; "--cleanup-algorithm"; ""; PyStr.of_int (get_number self)]
    (Some (name (config self))) dryrun ;;; ret tt.

Definition restore_cleanup_state (self : SnapperSnapshot) (dryrun : bool) : M unit :=
  run_snapper E
    ["modify"; "--cleanup-algorithm"; _cleanup self; PyStr.of_int (get_number self)]
    (Some (name (config self))) dryrun ;;; ret tt.

End Methods.

End SnapperSnapshot.

(** ** class SnapperConfig *)

Module SnapperConfig.

Definition init (name : string) (settings : option Json) (repo : Repo) : SnapperConfig :=
  {| attrs := {| name := name; settings := settings; repo := repo |};
     _snapshots := None |}.

(** [self.settings["TIMELINE_CREATE"] == "yes"]; a list is not equal to a
    string. *)
Definition is_timeline_enabled (self : SnapperConfig) : Result bool :=
  match settings_item (settings (attrs self)) "TIMELINE_CREATE" with
  | Return (VStr v) => Return (String.eqb v "yes")
  | Return (VRecords _) => Return false
  | Raise e => Raise e
  end.

Definition get_path (self : SnapperConfig) : Result Value :=
  settings_item (settings (attrs self)) "SUBVOLUME".

(** [r[key]], iterated over as a list of records, for the value [r] that
    [run_snapper] returned.  Subscripting [None] raises [TypeError].  In a
    settings mapping the value is a string: iterating the empty string
    yields nothing, and any other string yields characters, which cannot be
    subscripted by ["number"]. *)
Definition subscript (r : option Json) (key : string) : M (list Info) :=
  match r with
  | None => raise TypeError
  | Some (JList m) =>
      match m !! key with
      | Some l => ret l
      | None => raise (KeyError key)
      end
  | Some (JSettings m) =>
      match m !! key with
      | Some EmptyString => ret []
      | Some _ => raise TypeError
      | None => raise (KeyError key)
      end
  end.

Section Methods.

Variable E : Env.

(** Returns the object after the call together with the list. *)
Definition get_snapshots (self : SnapperConfig)
  : M (SnapperConfig * list SnapperSnapshot) :=
  match _snapshots self with
  | Some (s :: l) => ret (self, s :: l)
  | Some [] | None =>
      r <- run_snapper E ["list"; "--disable-used-space"] (Some (name (attrs self))) false ;;
      infos <- subscript r (name (attrs self)) ;;
      let snapshots :=
        List.map (SnapperSnapshot.init (attrs self))
          (List.filter (fun info => negb (number info =? 0)%Z) infos) in
      ret ({| attrs := attrs self; _snapshots := Some snapshots |}, snapshots)
  end.

Definition get (config_name : string) (repo : Repo) : M SnapperConfig :=
  settings <- run_snapper E ["get-config"] (Some config_name) false ;;
  ret (init config_name settings repo).

(** [if snapshots is None: snapshots = self.get_snapshots()] of
    [prevent_cleanup]: the configuration object after it and the list the
    two loops go over. *)
Definition guarded (self : SnapperConfig) (snapshots : option (list SnapperSnapshot))
  : M (SnapperConfig * list SnapperSnapshot) :=
  match snapshots with
  | None => get_snapshots self
  | Some l => ret (self, l)
  end.

(** [with self.prevent_cleanup(snapshots, dryrun) as c: body(c)]: the code
    of the generator up to [yield] runs on entering the block, the block
    runs at the [yield], and what follows runs when the block is left.  An
    exception before the [yield] leaves the generator at once, so that the
    block is not entered.  The result carries the configuration object as
    [get_snapshots] left it.  The loop after the block goes over the same
    list object as the loop before it; of its elements it reads the
    configuration name, the number and [_cleanup], which no method assigns,
    so that the list as it was on entry stands for the objects as the block
    leaves them. *)
Definition prevent_cleanup {A} (self : SnapperConfig)
    (snapshots : option (list SnapperSnapshot)) (dryrun : bool)
    (body : SnapperConfig -> M A) : M (SnapperConfig * A) :=
  loaded <- guarded self snapshots ;;
  let self := fst loaded in
  let snapshots := snd loaded in
  for_each snapshots (fun s => SnapperSnapshot.prevent_cleanup E s dryrun) ;;;
  a <- try_finally (body self)
         (for_each snapshots (fun s => SnapperSnapshot.restore_cleanup_state E s dryrun)) ;;
  ret (self, a).

End Methods.

End SnapperConfig.

(** ** The commands of the snapshot methods *)

Definition version_cmd : list string := ["snapper"; "--version"].

Definition modify_cmd (self : SnapperSnapshot) (field value : string) : list string :=
  args_new ["modify"; field; value; PyStr.of_int (SnapperSnapshot.get_number self)]
    (Some (name (config self))).

Definition disable_cmd (self : SnapperSnapshot) : list string :=
  modify_cmd self "--cleanup-algorithm" "".

Definition restore_cmd (self : SnapperSnapshot) : list string :=
  modify_cmd self "--cleanup-algorithm" (_cleanup self).

Definition purge_cmd (self : SnapperSnapshot) : list string :=
  modify_cmd self "--userdata" "snapborg_backup=".

Definition backed_up_cmd (self : SnapperSnapshot) : list string :=
  modify_cmd self "--userdata"
    ("snapborg_backup=" +:+ SnapperSnapshot.new_sb_backup_val self).

(** The event a command leaves: printed on a dry run, run otherwise. *)
Definition ev (dryrun : bool) (cmd : list string) : Event :=
  if dryrun then Print cmd else Exec cmd.

(** The version check [run_snapper] puts before the first of [n] commands. *)
Definition gate_events (w : World) (n : nat) : list Event :=
  if snapper_version_ok w then []
  else match n with
       | O => []
       | S _ => [Exec version_cmd]
       end.

(** ** The snapshot manager's reading of the commands

    Which snapshot a [modify] command of the trace addresses and what it
    assigns, so that the value a field holds after a trace can be named.
    Only commands that were run count; printed ones do not. *)

Module Store.

Inductive Write :=
| SetCleanup (v : string)
| SetUserdata (kv : string).

(** configuration ([""] when no [-c] was given), snapshot number, write *)
Definition write_of (cmd : list string) : option (string * string * Write) :=
  match cmd with
  | ["snapper"; "-c"; c; "--jsonout"; "modify"; "--cleanup-algorithm"; v; n] =>
      Some (c, n, SetCleanup v)
  | ["snapper"; "--jsonout"; "modify"; "--cleanup-algorithm"; v; n] =>
      Some ("", n, SetCleanup v)
  | ["snapper"; "-c"; c; "--jsonout"; "modify"; "--userdata"; kv; n] =>
      Some (c, n, SetUserdata kv)
  | ["snapper"; "--jsonout"; "modify"; "--userdata"; kv; n] =>
      Some ("", n, SetUserdata kv)
  | _ => None
  end.

Definition target (self : SnapperSnapshot) : string * string :=
  (name (config self), PyStr.of_int (SnapperSnapshot.get_number self)).

Definition cleanup_step (t : string * string) (cur : string) (e : Event) : string :=
  match e with
  | Exec cmd =>
      match write_of cmd with
      | Some (c, n, SetCleanup v) => if bool_decide ((c, n) = t) then v else cur
      | _ => cur
      end
  | Print _ => cur
  end.

(** The cleanup algorithm of snapshot [t] after the commands of [tr], when it
    was [init] before. *)
Definition persisted_cleanup (tr : list Event) (t : string * string) (init : string)
  : string :=
  fold_left (cleanup_step t) tr init.

(** [Some v] when [s] is [p] followed by [v] *)
Fixpoint after_prefix (p s : string) : option string :=
  match p, s with
  | EmptyString, _ => Some s
  | String a p', String b s' => if Ascii.eqb a b then after_prefix p' s' else None
  | String _ _, EmptyString => None
  end.

Definition tag_step (t : string * string) (cur : string) (e : Event) : string :=
  match e with
  | Exec cmd =>
      match write_of cmd with
      | Some (c, n, SetUserdata kv) =>
          if bool_decide ((c, n) = t)
          then default cur (after_prefix "snapborg_backup=" kv)
          else cur
      | _ => cur
      end
  | Print _ => cur
  end.

(** The value snapshot [t] holds under [snapborg_backup] after the commands
    of [tr], when it was [init] before. *)
Definition persisted_tag (tr : list Event) (t : string * string) (init : string)
  : string :=
  fold_left (tag_step t) tr init.

End Store.

(** ** The backed-up test as the specification words it

    The stored value is normalised only when it is exactly [true]; the
    tokens of any other value are taken as they stand. *)

Module Spec.

Definition normalize (tag : string) : string :=
  if String.eqb tag "true" then "local" else tag.

Definition tokens (tag : string) : list string := PyStr.split ":" (normalize tag).

Definition isBackedUp (tag : string) (destinationIsRemote : bool) : bool :=
  PyStr.contains (if destinationIsRemote then "remote" else "local") (tokens tag).

End Spec.

(** ** What the stored snapshot list satisfies

    The attributes meant are those no method assigns: the record with its
    number, the configuration, and the cleanup algorithm read from the
    record. *)

Definition list_ok (a : ConfigAttrs) (l : list SnapperSnapshot) : Prop :=
  List.Forall
    (fun s => SnapperSnapshot.get_number s <> 0%Z /\ config s = a /\
              _cleanup s = cleanup (info s)) l.

Definition cache_ok (self : SnapperConfig) : Prop :=
  forall l, _snapshots self = Some l -> list_ok (attrs self) l.

(** No list, or the empty list, is stored: the next call loads. *)
Definition unloaded (self : SnapperConfig) : Prop :=
  _snapshots self = None \/ _snapshots self = Some [].

(** ** Concrete environments and objects *)

Module Demo.

Definition newline : ascii := Ascii.ascii_of_nat 10.

Definition info_of (n : Z) (tag : option string) (c : string) : Info :=
  {| number := n;
     date := "2024-01-01 00:00:00";
     userdata := (fun t => {[ "snapborg_backup" := t ]}) <$> tag;
     cleanup := c |}.

(** The snapshot manager holds the live state and three snapshots of
    configuration [root]. *)
Definition listing : gmap string (list Info) :=
  {[ "root" := [ info_of 0 None "";
                 info_of 1 None "number";
                 info_of 2 (Some "local") "timeline";
                 info_of 3 (Some "true:remote") "" ] ]}.

(** Only the live state. *)
Definition listing_live : gmap string (list Info) :=
  {[ "root" := [ info_of 0 None "" ] ]}.

(** Versions made of dotted numbers only, compared segment by segment with
    missing segments read as zero. *)
Definition release (v : string) : option (list N) :=
  mapM (fun seg => N.of_uint <$> NilZero.uint_of_string seg) (PyStr.split "." v).

Fixpoint release_ltb (a b : list N) : bool :=
  match a, b with
  | x :: a', y :: b' => (x <? y)%N || ((x =? y)%N && release_ltb a' b')
  | [], b => existsb (fun y => (0 <? y)%N) b
  | _ :: _, [] => false
  end.

Definition release_lt (a b : string) : option bool :=
  ra ← release a; rb ← release b; Some (release_ltb ra rb).

(** A tool of version 0.10.4 that answers [list] with [l], prints nothing
    for other commands, and fails on the commands [bad] holds. *)
Definition env (l : gmap string (list Info)) (bad : list (list string)) : Env :=
  {| check_output := fun _ cmd =>
       if bool_decide (cmd ∈ bad) then None
       else if bool_decide (cmd = version_cmd) then Some "snapper 0.10.4"
       else if bool_decide (cmd = args_new ["list"; "--disable-used-space"] (Some "root"))
       then Some "LIST"
       else Some "";
     splitlines := PyStr.split newline;
     strip := fun s => s;
     json_loads := fun s => if String.eqb s "LIST" then Some (JList l) else None;
     version_lt := release_lt |}.

Definition local_repo : Repo := {| repopath := "/mnt/backup/borg" |}.
Definition remote_repo : Repo := {| repopath := "ssh://backup@host/./borg" |}.

Definition root_local : ConfigAttrs :=
  {| name := "root"; settings := None; repo := local_repo |}.
Definition root_remote : ConfigAttrs :=
  {| name := "root"; settings := None; repo := remote_repo |}.

Definition snap (c : ConfigAttrs) (n : Z) (tag : option string) (cl : string)
  : SnapperSnapshot :=
  SnapperSnapshot.init c (info_of n tag cl).

(** A process that has not run [snapper] yet, and one whose version check
    has passed. *)
Definition fresh : World := {| snapper_version_ok := false; trace := [] |}.
Definition checked : World := {| snapper_version_ok := true; trace := [] |}.

Definition root : SnapperConfig := SnapperConfig.init "root" None local_repo.

(** Three snapshots with the cleanup algorithms [number-cleanup],
    [timeline] and none. *)
Definition A : SnapperSnapshot := snap root_local 1 None "number-cleanup".
Definition B : SnapperSnapshot := snap root_local 2 None "timeline".
Definition C : SnapperSnapshot := snap root_local 3 None "".

(** A tool that works, and one that fails when the cleanup of [B] is
    switched off. *)
Definition tool : Env := env listing [].
Definition tool_failing_on_B : Env := env listing [disable_cmd B].

(** A block that marks [A] as backed up and then fails. *)
Definition failing_body (c : SnapperConfig) : M unit :=
  SnapperSnapshot.set_backed_up tool A false ;;;
  raise (Exception "borg create failed").

(** The worlds a guarded block over [A], [B], [C] that fails goes through in
    a process that has not run [snapper] yet. *)
Definition after_entry : World :=
  snd (for_each [A; B; C] (fun s => SnapperSnapshot.prevent_cleanup tool s false) fresh).
Definition after_body : World := snd (failing_body root after_entry).
Definition after_exit : World :=
  snd (for_each [A; B; C] (fun s => SnapperSnapshot.restore_cleanup_state tool s false)
         after_body).

(** A configuration with settings. *)
Definition home_settings : gmap string string :=
  {[ "SUBVOLUME" := "/home"; "TIMELINE_CREATE" := "yes" ]}.
Definition home : ConfigAttrs :=
  {| name := "home"; settings := Some (JSettings home_settings); repo := local_repo |}.

(** A tool like [tool] that prints [out] for [--version], and one that
    reports version [v]. *)
Definition tool_saying (out : string) : Env :=
  {| check_output := fun h cmd =>
       if bool_decide (cmd = version_cmd) then Some out
       else check_output tool h cmd;
     splitlines := splitlines tool;
     strip := strip tool;
     json_loads := json_loads tool;
     version_lt := version_lt tool |}.

Definition tool_of_version (v : string) : Env := tool_saying ("snapper " +:+ v).

(** A tool that fails when the cleanup algorithm of [B] is restored. *)
Definition tool_failing_on_restore_B : Env := env listing [restore_cmd B].

(** The worlds of a guarded block over [A], [B], [C] that returns, with a
    tool that fails when the cleanup algorithm of [B] is restored. *)
Definition entered : World :=
  snd (for_each [A; B; C]
         (fun s => SnapperSnapshot.prevent_cleanup tool_failing_on_restore_B s false)
         checked).
Definition worked : World :=
  snd (SnapperSnapshot.set_backed_up tool A false entered).
Definition left_half_restored : World :=
  snd (for_each [A; B; C]
         (fun s => SnapperSnapshot.restore_cleanup_state tool_failing_on_restore_B s false)
         worked).

(** A block that marks [A] as backed up and returns. *)
Definition returning_body (c : SnapperConfig) : M nat :=
  SnapperSnapshot.set_backed_up tool A false ;;; ret 7.

(** The snapshots of [listing], and [root] once it has loaded them. *)
Definition listed : list SnapperSnapshot :=
  [snap root_local 1 None "number";
   snap root_local 2 (Some "local") "timeline";
   snap root_local 3 (Some "true:remote") ""].
Definition root_loaded : SnapperConfig :=
  {| attrs := root_local; _snapshots := Some listed |}.

(** A stand-in for [str] of a list of records. *)
Definition str_records (l : list Info) : string := "[...]".

End Demo.

(** * Properties *)

(** ** Strings *)

Example replace_whole : PyStr.replace "true" "local" "true" = "local".
Proof. reflexivity. Qed.

Example replace_inside : PyStr.replace "true" "local" "untrue:true:tru" = "unlocal:local:tru".
Proof. reflexivity. Qed.

Example replace_leftmost : PyStr.replace "aa" "b" "aaaaa" = "bba".
Proof. reflexivity. Qed.

Example replace_empty_pattern : PyStr.replace "" "x" "abc" = "xaxbxcx".
Proof. reflexivity. Qed.

Example split_empty : PyStr.split ":" "" = [""].
Proof. reflexivity. Qed.

Example split_keeps_empty_fields : PyStr.split ":" ":a::b:" = [""; "a"; ""; "b"; ""].
Proof. reflexivity. Qed.

Example join_fields : PyStr.join ":" [""; "a"; ""; "b"; ""] = ":a::b:".
Proof. reflexivity. Qed.

Example of_int_signs :
  PyStr.of_int 42 = "42" /\ PyStr.of_int (-3) = "-3" /\ PyStr.of_int 0 = "0".
Proof. repeat split. Qed.

Lemma split_nonempty (c : ascii) (s : string) : PyStr.split c s <> [].
Proof.
  destruct s as [|a r]; simpl; [discriminate|].
  destruct (Ascii.eqb a c); [discriminate|].
  destruct (PyStr.split c r); discriminate.
Qed.

(** Joining the fields of a string on the separator gives the string back. *)
Lemma join_split (c : ascii) (s : string) :
  PyStr.join (String c EmptyString) (PyStr.split c s) = s.
Proof.
  unfold PyStr.join.
  induction s as [|a r IH]; simpl; [reflexivity|].
  destruct (Ascii.eqb_spec a c) as [->|Hne].
  - pose proof (split_nonempty c r) as Hn.
    destruct (PyStr.split c r) as [|h t]; [congruence|].
    simpl in *. now rewrite IH.
  - destruct (PyStr.split c r) as [|h t] eqn:Hs.
    + now apply split_nonempty in Hs.
    + simpl in *. destruct t; simpl in *; now rewrite <- IH.
Qed.

Lemma prefix_app (p s : string) :
  String.prefix p s = true -> exists r, s = p +:+ r.
Proof.
  revert s. induction p as [|a p IH]; intros s H.
  - exists s. now destruct s.
  - destruct s as [|b s]; simpl in H; [discriminate|].
    destruct (Ascii.ascii_dec a b) as [->|]; [|discriminate].
    destruct (IH _ H) as [r ->]. now exists r.
Qed.

Lemma prefix_app_true (p r : string) : String.prefix p (p +:+ r) = true.
Proof.
  induction p as [|a p IH]; simpl; [now destruct r|].
  destruct (Ascii.ascii_dec a a); [assumption|congruence].
Qed.

Lemma replace_from_cons (old new : string) (c : ascii) (r : string) :
  PyStr.replace_from old new 0 (String c r) =
  if String.prefix old (String c r)
  then new +:+ PyStr.replace_from old new (String.length old - 1) r
  else String c (PyStr.replace_from old new 0 r).
Proof. reflexivity. Qed.

(** The characters of a matched occurrence are dropped. *)
Lemma replace_from_skip (old new p r : string) :
  PyStr.replace_from old new (String.length p) (p +:+ r) = PyStr.replace_from old new 0 r.
Proof. induction p as [|a p IH]; [reflexivity|exact IH]. Qed.

Lemma replace_from_hit (a : ascii) (old' new r : string) :
  PyStr.replace_from (String a old') new 0 (String a old' +:+ r) =
  new +:+ PyStr.replace_from (String a old') new 0 r.
Proof.
  change (String a old' +:+ r) with (String a (old' +:+ r)).
  rewrite replace_from_cons.
  change (String a (old' +:+ r)) with (String a old' +:+ r).
  rewrite prefix_app_true.
  replace (String.length (String a old') - 1) with (String.length old') by (simpl; lia).
  now rewrite replace_from_skip.
Qed.


Lemma replace_true_hit (r : string) :
  PyStr.replace "true" "local" ("true" +:+ r) = "local" +:+ PyStr.replace "true" "local" r.
Proof. unfold PyStr.replace. apply replace_from_hit. Qed.

Lemma replace_true_miss (c : ascii) (r : string) :
  String.prefix "true" (String c r) = false ->
  PyStr.replace "true" "local" (String c r) = String c (PyStr.replace "true" "local" r).
Proof.
  intros H. unfold PyStr.replace. rewrite replace_from_cons. now rewrite H.
Qed.

(** Induction following the scan of [replace]: the string is empty, starts
    with an occurrence, or starts with a character that is kept. *)
Lemma replace_true_ind (P : string -> Prop) :
  P "" ->
  (forall r, P r -> P ("true" +:+ r)) ->
  (forall c r, String.prefix "true" (String c r) = false -> P r -> P (String c r)) ->
  forall s, P s.
Proof.
  intros Hnil Hhit Hmiss s.
  remember (String.length s) as n eqn:Hn.
  revert s Hn. induction n as [n IH] using lt_wf_ind. intros s Hn.
  destruct s as [|c r]; [exact Hnil|].
  destruct (String.prefix "true" (String c r)) eqn:Hp.
  - destruct (prefix_app _ _ Hp) as [r' Hr']. rewrite Hr'.
    apply Hhit. apply (IH (String.length r')); [|reflexivity].
    rewrite Hn, Hr'. unfold String.append. simpl. lia.
  - apply Hmiss; [exact Hp|]. apply (IH (String.length r)); [|reflexivity].
    rewrite Hn. simpl. lia.
Qed.

Lemma split_sep (sep : ascii) (r : string) :
  PyStr.split sep (String sep r) = EmptyString :: PyStr.split sep r.
Proof. simpl. now rewrite Ascii.eqb_refl. Qed.

Lemma split_keep (sep c : ascii) (r : string) :
  c <> sep ->
  PyStr.split sep (String c r) =
  String c (hd EmptyString (PyStr.split sep r)) :: tl (PyStr.split sep r).
Proof.
  intros Hne. simpl. destruct (Ascii.eqb_spec c sep) as [|_]; [contradiction|].
  pose proof (split_nonempty sep r). now destruct (PyStr.split sep r).
Qed.

(** The first field of a string is a prefix of it. *)
Lemma split_hd_prefix (sep : ascii) (r : string) :
  exists rest, r = hd EmptyString (PyStr.split sep r) +:+ rest.
Proof.
  induction r as [|a r [rest IH]].
  - now exists EmptyString.
  - destruct (Ascii.eqb_spec a sep) as [->|Hne].
    + rewrite split_sep. now exists (String sep r).
    + rewrite split_keep by assumption. exists rest. simpl.
      change (String a ?x +:+ rest) with (String a (x +:+ rest)). now rewrite <- IH.
Qed.

Lemma prefix_app_r (p x y : string) :
  String.prefix p x = true -> String.prefix p (x +:+ y) = true.
Proof.
  revert x. induction p as [|a p IH]; intros x H.
  - now destruct (x +:+ y).
  - destruct x as [|b x]; [discriminate|].
    change (String b x +:+ y) with (String b (x +:+ y)).
    simpl in *. destruct (Ascii.ascii_dec a b); [now apply IH|discriminate].
Qed.

(** A kept character stays kept when the string is cut at the first
    separator. *)
Lemma prefix_true_field (c : ascii) (r : string) :
  String.prefix "true" (String c r) = false ->
  String.prefix "true" (String c (hd EmptyString (PyStr.split ":" r))) = false.
Proof.
  intros H. destruct (split_hd_prefix ":" r) as [rest Hr].
  destruct (String.prefix "true" (String c (hd EmptyString (PyStr.split ":" r)))) eqn:Hp;
    [|reflexivity].
  apply (prefix_app_r _ _ rest) in Hp.
  change (String c ?x +:+ rest) with (String c (x +:+ rest)) in Hp.
  rewrite <- Hr in Hp. congruence.
Qed.

(** Replacing in the whole tag and then splitting is splitting and then
    replacing in every token: an occurrence never spans a separator. *)
Lemma split_replace_true (s : string) :
  PyStr.split ":" (PyStr.replace "true" "local" s) =
  List.map (PyStr.replace "true" "local") (PyStr.split ":" s).
Proof.
  induction s as [|r IH|c r Hp IH] using replace_true_ind.
  - reflexivity.
  - rewrite replace_true_hit.
    pose proof (split_nonempty ":" r) as Hn.
    destruct (PyStr.split ":" r) as [|h t] eqn:Hs; [congruence|].
    cbv [String.append].
    rewrite !split_keep by discriminate. rewrite IH, Hs. simpl hd. simpl tl.
    cbn [List.map]. f_equal.
    change (String "t" (String "r" (String "u" (String "e" h)))) with ("true" +:+ h).
    now rewrite replace_true_hit.
  - rewrite replace_true_miss by assumption.
    destruct (Ascii.eqb_spec c ":") as [->|Hne].
    + rewrite !split_sep, IH. reflexivity.
    + rewrite !split_keep by assumption. rewrite IH.
      pose proof (prefix_true_field c r Hp) as Hf.
      pose proof (split_nonempty ":" r) as Hn.
      destruct (PyStr.split ":" r) as [|h t]; [congruence|].
      cbn [hd tl List.map] in Hf |- *. now rewrite replace_true_miss.
Qed.

Lemma replace_true_eq_nil (s : string) :
  PyStr.replace "true" "local" s = "" -> s = "".
Proof.
  destruct s as [|c r]; [reflexivity|]. intros H.
  destruct (String.prefix "true" (String c r)) eqn:Hp.
  - apply prefix_app in Hp as [r' Hr']. rewrite Hr', replace_true_hit in H.
    cbv [String.append] in H. discriminate.
  - rewrite replace_true_miss in H by assumption. discriminate.
Qed.

(** What a string whose replacement starts with [c] looks like. *)
Lemma replace_true_inv (s : string) (c : ascii) (out : string) :
  PyStr.replace "true" "local" s = String c out ->
  (exists r, s = "true" +:+ r /\ "local" +:+ PyStr.replace "true" "local" r = String c out) \/
  (exists r, s = String c r /\ PyStr.replace "true" "local" r = out).
Proof.
  destruct s as [|a r]; [discriminate|]. intros H.
  destruct (String.prefix "true" (String a r)) eqn:Hp.
  - left. apply prefix_app in Hp as [r' Hr']. exists r'. split; [assumption|].
    now rewrite Hr', replace_true_hit in H.
  - right. rewrite replace_true_miss in H by assumption.
    injection H as -> H. now exists r.
Qed.

Ltac replace_true_step H :=
  apply replace_true_inv in H as [[? [-> H]]|[? [-> H]]];
  [cbv [String.append] in H; try discriminate H|].

Lemma replace_true_eq_local (t : string) :
  PyStr.replace "true" "local" t = "local" <-> t = "local" \/ t = "true".
Proof.
  split.
  - intros H. replace_true_step H.
    + injection H as H. apply replace_true_eq_nil in H. subst. now right.
    + do 4 replace_true_step H. apply replace_true_eq_nil in H. subst. now left.
  - now intros [->| ->].
Qed.

Lemma replace_true_eq_remote (t : string) :
  PyStr.replace "true" "local" t = "remote" <-> t = "remote".
Proof.
  split.
  - intros H. do 6 replace_true_step H. apply replace_true_eq_nil in H. now subst.
  - now intros ->.
Qed.

Lemma occurs_cons (p : string) (c : ascii) (r : string) :
  PyStr.occurs p (String c r) = String.prefix p (String c r) || PyStr.occurs p r.
Proof. reflexivity. Qed.

(** A character that is kept does not start an occurrence in the result
    either. *)
Lemma prefix_true_replace (c : ascii) (r : string) :
  String.prefix "true" (String c r) = false ->
  String.prefix "true" (String c (PyStr.replace "true" "local" r)) = false.
Proof.
  intros H.
  destruct (String.prefix "true" (String c (PyStr.replace "true" "local" r))) eqn:Hp;
    [exfalso|reflexivity].
  apply prefix_app in Hp as [rest Hrest]. cbv [String.append] in Hrest.
  injection Hrest as -> Hr.
  do 3 replace_true_step Hr.
  change (String "t" (String "r" (String "u" (String "e" ?x)))) with ("true" +:+ x) in H.
  rewrite prefix_app_true in H. discriminate.
Qed.

(** No occurrence is left in the result. *)
Lemma replace_true_no_true (s : string) :
  PyStr.occurs "true" (PyStr.replace "true" "local" s) = false.
Proof.
  induction s as [|r IH|c r Hp IH] using replace_true_ind.
  - reflexivity.
  - rewrite replace_true_hit. cbv [String.append]. rewrite !occurs_cons, IH.
    reflexivity.
  - rewrite replace_true_miss by assumption.
    now rewrite occurs_cons, IH, prefix_true_replace.
Qed.

Lemma contains_In (x : string) (l : list string) :
  PyStr.contains x l = true <-> In x l.
Proof.
  unfold PyStr.contains. rewrite existsb_exists. split.
  - intros [y [Hy He]]. apply String.eqb_eq in He. now subst.
  - intros H. exists x. split; [assumption|apply String.eqb_refl].
Qed.

(** ** [run_snapper] *)

Section RunSnapper.

Variable E : Env.

(** Whatever the version check finds, it runs [snapper --version] once and
    does nothing else to the world. *)
Lemma check_snapper_world (w : World) :
  snd (check_snapper E w) = emit (Exec version_cmd) w.
Proof.
  unfold check_snapper, bind, subprocess_check_output, version_cmd.
  destruct (check_output E (trace w) _) as [out|]; [|reflexivity].
  destruct (List.filter _ _) as [|line ?]; [reflexivity|].
  destruct (PyStr.split " " line !! 1) as [v|]; [|reflexivity].
  destruct (version_lt E v "0.8.6") as [[|]|]; reflexivity.
Qed.

(** Once the version check has passed, a dry run only prints the command. *)
Lemma run_snapper_checked_dry (args : list string) (cfg : option string) (w : World) :
  snapper_version_ok w = true ->
  run_snapper E args cfg true w = (Return None, emit (Print (args_new args cfg)) w).
Proof. intros H. unfold run_snapper, bind. now rewrite H. Qed.

(** Once the version check has passed, a real run hands the command to the
    tool and decodes what it printed. *)
Lemma run_snapper_checked_exec (args : list string) (cfg : option string) (w : World) :
  snapper_version_ok w = true ->
  run_snapper E args cfg false w =
  (match check_output E (trace w) (args_new args cfg) with
   | None => Raise (CalledProcessError (args_new args cfg))
   | Some out =>
       if String.eqb (strip E out) "" then Return None
       else match json_loads E (strip E out) with
            | Some j => Return (Some j)
            | None => Raise JSONDecodeError
            end
   end, emit (Exec (args_new args cfg)) w).
Proof.
  intros H. unfold run_snapper, bind, subprocess_check_output. rewrite H.
  destruct (check_output E (trace w) _) as [out|]; [|reflexivity].
  destruct (String.eqb (strip E out) ""); [reflexivity|].
  now destruct (json_loads E (strip E out)).
Qed.

Lemma run_snapper_return (args : list string) (cfg : option string) (dryrun : bool)
    (w w' : World) (r : option Json) :
  run_snapper E args cfg dryrun w = (Return r, w') ->
  trace w' = trace w ++ gate_events w 1 ++ [ev dryrun (args_new args cfg)] /\
  snapper_version_ok w' = true.
Proof.
  intros H. unfold gate_events.
  destruct (snapper_version_ok w) eqn:Hok.
  - destruct dryrun.
    + rewrite run_snapper_checked_dry in H by assumption.
      injection H as _ <-. now split.
    + rewrite run_snapper_checked_exec in H by assumption.
      injection H as _ <-. now split.
  - unfold run_snapper in H. unfold bind at 1 in H. rewrite Hok in H.
    pose proof (check_snapper_world w) as Hw.
    destruct (check_snapper E w) as [[[]|e] w1]; [|discriminate].
    simpl in Hw. subst w1.
    assert (Hok' : snapper_version_ok (set_version_ok (emit (Exec version_cmd) w)) = true)
      by reflexivity.
    destruct dryrun.
    + pose proof (run_snapper_checked_dry args cfg _ Hok') as Hr.
      unfold run_snapper in Hr. unfold bind at 1 in Hr. rewrite Hok' in Hr.
      rewrite Hr in H. injection H as _ <-. simpl. rewrite <- app_assoc. now split.
    + pose proof (run_snapper_checked_exec args cfg _ Hok') as Hr.
      unfold run_snapper in Hr. unfold bind at 1 in Hr. rewrite Hok' in Hr.
      rewrite Hr in H. injection H as _ <-. simpl. rewrite <- app_assoc. now split.
Qed.

(** A failing call failed in the version check, or ran the command. *)
Lemma run_snapper_raise (args : list string) (cfg : option string) (dryrun : bool)
    (w w' : World) (e : Exn) :
  run_snapper E args cfg dryrun w = (Raise e, w') ->
  (snapper_version_ok w = false /\ w' = emit (Exec version_cmd) w) \/
  (dryrun = false /\
   trace w' = trace w ++ gate_events w 1 ++ [Exec (args_new args cfg)] /\
   snapper_version_ok w' = true).
Proof.
  intros H. unfold gate_events.
  destruct (snapper_version_ok w) eqn:Hok.
  - right. destruct dryrun.
    + rewrite run_snapper_checked_dry in H by assumption. discriminate.
    + rewrite run_snapper_checked_exec in H by assumption.
      injection H as _ <-. now repeat split.
  - unfold run_snapper in H. unfold bind at 1 in H. rewrite Hok in H.
    pose proof (check_snapper_world w) as Hw.
    destruct (check_snapper E w) as [[[]|e'] w1]; simpl in Hw; subst w1.
    + right.
      assert (Hok' : snapper_version_ok (set_version_ok (emit (Exec version_cmd) w)) = true)
        by reflexivity.
      destruct dryrun.
      * pose proof (run_snapper_checked_dry args cfg _ Hok') as Hr.
        unfold run_snapper in Hr. unfold bind at 1 in Hr. rewrite Hok' in Hr.
        rewrite Hr in H. discriminate.
      * pose proof (run_snapper_checked_exec args cfg _ Hok') as Hr.
        unfold run_snapper in Hr. unfold bind at 1 in Hr. rewrite Hok' in Hr.
        rewrite Hr in H. injection H as _ <-. simpl. rewrite <- app_assoc.
        now repeat split.
    + left. injection H as _ <-. now split.
Qed.

End RunSnapper.

(** ** Loops of commands over snapshots *)

Section Loops.

Variable E : Env.
Variable dryrun : bool.
Variable args : SnapperSnapshot -> list string.
Variable cfg : SnapperSnapshot -> option string.

Lemma gate_events_succ (w : World) (n : nat) : gate_events w (S n) = gate_events w 1.
Proof. reflexivity. Qed.

Lemma gate_events_checked (w : World) (n : nat) :
  snapper_version_ok w = true -> gate_events w n = [].
Proof. intros H. unfold gate_events. now rewrite H. Qed.

(** A method is a call of [run_snapper] whose result is dropped. *)
Lemma call_return {X : Type} (x y : X) (a : list string) (c : option string)
    (w w' : World) :
  (run_snapper E a c dryrun ;;; ret x) w = (Return y, w') ->
  y = x /\
  trace w' = trace w ++ gate_events w 1 ++ [ev dryrun (args_new a c)] /\
  snapper_version_ok w' = true.
Proof.
  unfold bind, ret. destruct (run_snapper E a c dryrun w) as [[r|e] w1] eqn:Hr;
    [|discriminate].
  intros H. injection H as <- <-. split; [reflexivity|].
  eapply run_snapper_return, Hr.
Qed.

Lemma call_raise {X : Type} (x : X) (a : list string) (c : option string)
    (w w' : World) (e : Exn) :
  (run_snapper E a c dryrun ;;; ret x) w = (Raise e, w') ->
  (snapper_version_ok w = false /\ w' = emit (Exec version_cmd) w) \/
  (dryrun = false /\
   trace w' = trace w ++ gate_events w 1 ++ [Exec (args_new a c)] /\
   snapper_version_ok w' = true).
Proof.
  unfold bind, ret. destruct (run_snapper E a c dryrun w) as [[r|e'] w1] eqn:Hr;
    [discriminate|].
  intros H. injection H as _ <-. eapply run_snapper_raise, Hr.
Qed.

(** A loop that returns has left one event per snapshot, in the order of the
    list, after the version check if that was still due. *)
Lemma loop_return (snaps : list SnapperSnapshot) (w w' : World) :
  for_each snaps (fun s => run_snapper E (args s) (cfg s) dryrun ;;; ret tt) w
    = (Return tt, w') ->
  trace w' = trace w ++ gate_events w (List.length snaps)
               ++ List.map (fun s => ev dryrun (args_new (args s) (cfg s))) snaps /\
  (snaps = [] -> w' = w) /\
  (snaps <> [] -> snapper_version_ok w' = true).
Proof.
  revert w. induction snaps as [|x l IH]; intros w H.
  - injection H as <-. unfold gate_events. destruct (snapper_version_ok w);
      rewrite app_nil_r; now repeat split.
  - cbn [for_each] in H. unfold bind at 1 in H.
    destruct ((run_snapper E (args x) (cfg x) dryrun ;;; ret tt) w) as [[[]|e] w1] eqn:Hx;
      [|discriminate].
    apply call_return in Hx as (_ & Ht & Hok).
    destruct (IH _ H) as [Ht' [Hnil Hne]].
    split; [|split; [discriminate|]].
    + rewrite Ht', Ht, (gate_events_checked w1) by assumption.
      cbn [List.length List.map]. rewrite (gate_events_succ w (List.length l)), <- !app_assoc. reflexivity.
    + intros _. destruct l; [now rewrite (Hnil eq_refl)|now apply Hne].
Qed.

(** A loop that raises has left an event for the snapshots up to the failing
    one and for no other. *)
Lemma loop_raise (snaps : list SnapperSnapshot) (w w' : World) (e : Exn) :
  for_each snaps (fun s => run_snapper E (args s) (cfg s) dryrun ;;; ret tt) w
    = (Raise e, w') ->
  exists k, k <= List.length snaps /\
    trace w' = trace w ++ gate_events w (List.length snaps)
                 ++ List.map (fun s => ev dryrun (args_new (args s) (cfg s))) (take k snaps).
Proof.
  revert w. induction snaps as [|x l IH]; intros w H; [discriminate|].
  cbn [for_each] in H. unfold bind at 1 in H.
  destruct ((run_snapper E (args x) (cfg x) dryrun ;;; ret tt) w) as [[[]|e'] w1] eqn:Hx.
  - apply call_return in Hx as (_ & Ht & Hok).
    destruct (IH _ H) as [k [Hk Ht']].
    exists (S k). split; [simpl; lia|].
    rewrite Ht', Ht, (gate_events_checked w1) by assumption.
    cbn [List.length List.map take]. rewrite (gate_events_succ w (List.length l)), <- !app_assoc. reflexivity.
  - injection H as _ <-. apply call_raise in Hx as [[Hok ->]|[-> [Ht _]]].
    + exists 0. split; [lia|]. unfold gate_events. rewrite Hok. reflexivity.
    + exists 1. split; [simpl; lia|]. rewrite Ht. reflexivity.
Qed.

End Loops.

(** ** The commands read as writes *)

Lemma write_of_cleanup (s : SnapperSnapshot) (v : string) :
  Store.write_of (modify_cmd s "--cleanup-algorithm" v) =
  Some (name (config s), PyStr.of_int (SnapperSnapshot.get_number s), Store.SetCleanup v).
Proof. unfold modify_cmd, args_new. now destruct (name (config s)). Qed.

Lemma cleanup_step_write (s : SnapperSnapshot) (v cur : string) (t : string * string) :
  Store.cleanup_step t cur (Exec (modify_cmd s "--cleanup-algorithm" v)) =
  if bool_decide (Store.target s = t) then v else cur.
Proof. unfold Store.cleanup_step. now rewrite write_of_cleanup. Qed.

Lemma persisted_cleanup_app (tr tr' : list Event) (t : string * string) (init : string) :
  Store.persisted_cleanup (tr ++ tr') t init =
  Store.persisted_cleanup tr' t (Store.persisted_cleanup tr t init).
Proof. apply fold_left_app. Qed.

Lemma persisted_cleanup_gate (w : World) (n : nat) (t : string * string) (init : string) :
  Store.persisted_cleanup (gate_events w n) t init = init.
Proof. unfold gate_events. destruct (snapper_version_ok w), n; reflexivity. Qed.

(** Commands that address other snapshots leave the field alone. *)
Lemma persisted_cleanup_others (f : SnapperSnapshot -> string)
    (snaps : list SnapperSnapshot) (t : string * string) (init : string) :
  ~ In t (List.map Store.target snaps) ->
  Store.persisted_cleanup
    (List.map (fun s => Exec (modify_cmd s "--cleanup-algorithm" (f s))) snaps) t init = init.
Proof.
  revert init. induction snaps as [|x l IH]; intros init Hn; [reflexivity|].
  cbn [List.map] in *. unfold Store.persisted_cleanup in *. cbn [fold_left].
  rewrite cleanup_step_write. case_bool_decide as Hx.
  - exfalso. apply Hn. now left.
  - apply IH. intros Hin. apply Hn. now right.
Qed.

(** After one write per snapshot, each snapshot holds the value written for
    it, provided no two of them are the same snapshot of the tool. *)
Lemma persisted_cleanup_each (f : SnapperSnapshot -> string)
    (snaps : list SnapperSnapshot) (s : SnapperSnapshot) (init : string) :
  List.NoDup (List.map Store.target snaps) ->
  In s snaps ->
  Store.persisted_cleanup
    (List.map (fun s => Exec (modify_cmd s "--cleanup-algorithm" (f s))) snaps)
    (Store.target s) init = f s.
Proof.
  revert init. induction snaps as [|x l IH]; intros init Hd Hin; [contradiction|].
  cbn [List.map] in *. apply List.NoDup_cons_iff in Hd as [Hx Hd].
  unfold Store.persisted_cleanup in *. cbn [fold_left].
  rewrite cleanup_step_write.
  destruct Hin as [->|Hin].
  - rewrite bool_decide_eq_true_2 by reflexivity.
    now apply persisted_cleanup_others.
  - now apply IH.
Qed.


(** ** The cleanup guard *)

Lemma init_cleanup (c : ConfigAttrs) (i : Info) :
  _cleanup (SnapperSnapshot.init c i) = cleanup i.
Proof. reflexivity. Qed.

(** C1, as it is stated, fails: the tool fails when the cleanup of [B] is
    switched off, the error leaves the guard, and the trace holds the two
    commands of the entry phase and no restore command for [A] or [B]. *)
Lemma guard_entry_failure_restores_nothing :
  SnapperConfig.prevent_cleanup Demo.tool_failing_on_B Demo.root
    (Some [Demo.A; Demo.B]) false (fun _ => ret tt) Demo.checked
  = (Raise (CalledProcessError (disable_cmd Demo.B)),
     {| snapper_version_ok := true;
        trace := [Exec (disable_cmd Demo.A); Exec (disable_cmd Demo.B)] |}) /\
  ~ In (Exec (restore_cmd Demo.A)) [Exec (disable_cmd Demo.A); Exec (disable_cmd Demo.B)] /\
  ~ In (Exec (restore_cmd Demo.B)) [Exec (disable_cmd Demo.A); Exec (disable_cmd Demo.B)].
Proof.
  split; [vm_compute; reflexivity|].
  split; intros [H|[H|[]]]; vm_compute in H; discriminate H.
Qed.

(** ** Restoring the cleanup algorithm *)

Lemma map_replicate {X Y : Type} (f : X -> Y) (n : nat) (x : X) :
  List.map f (replicate n x) = replicate n (f x).
Proof. induction n as [|n IH]; [reflexivity|]. simpl. now rewrite IH. Qed.

(** C6: the restore command of a snapshot carries the [cleanup] string of the
    record the snapshot was constructed from, whatever that string is, and a
    real run hands exactly this command to the tool.  Hence, when cleanup is
    switched off once or more often and then restored, and these calls
    return, the trace holds the commands switching it off followed by the
    restore command, and the algorithm the snapshot then holds is the one of
    its record. *)
Theorem restore_writes_captured_cleanup
    (E : Env) (c : ConfigAttrs) (i : Info) (n : nat) (w w' : World) (init : string) :
  (for_each (replicate (S n) (SnapperSnapshot.init c i))
     (fun s => SnapperSnapshot.prevent_cleanup E s false) ;;;
   SnapperSnapshot.restore_cleanup_state E (SnapperSnapshot.init c i) false) w
    = (Return tt, w') ->
  restore_cmd (SnapperSnapshot.init c i) =
    args_new ["modify"; "--cleanup-algorithm"; cleanup i; PyStr.of_int (number i)]
      (Some (name c)) /\
  (forall w0, snapper_version_ok w0 = true ->
     snd (SnapperSnapshot.restore_cleanup_state E (SnapperSnapshot.init c i) false w0)
     = emit (Exec (restore_cmd (SnapperSnapshot.init c i))) w0) /\
  trace w' = trace w ++ gate_events w 1
               ++ replicate (S n) (Exec (disable_cmd (SnapperSnapshot.init c i)))
               ++ [Exec (restore_cmd (SnapperSnapshot.init c i))] /\
  Store.persisted_cleanup (trace w') (Store.target (SnapperSnapshot.init c i)) init
    = cleanup i.
Proof.
  intros H. unfold bind at 1 in H.
  destruct (for_each _ _ w) as [[[]|e] w1] eqn:Hloop; [|discriminate].
  apply (loop_return E false) in Hloop as (Ht1 & _ & Hok).
  specialize (Hok ltac:(discriminate)).
  apply (call_return E false) in H as (_ & Ht' & _).
  rewrite gate_events_checked in Ht' by assumption.
  rewrite length_replicate, gate_events_succ, map_replicate in Ht1.
  assert (Ht : trace w' = trace w ++ gate_events w 1
                 ++ replicate (S n) (Exec (disable_cmd (SnapperSnapshot.init c i)))
                 ++ [Exec (restore_cmd (SnapperSnapshot.init c i))]).
  { rewrite Ht', Ht1, <- !app_assoc. reflexivity. }
  repeat split.
  - intros w0 Hw0. unfold SnapperSnapshot.restore_cleanup_state, bind, ret.
    rewrite run_snapper_checked_exec by assumption.
    now destruct (check_output E _ _) as [out|];
      [destruct (String.eqb _ _); [|destruct (json_loads E _)]|].
  - exact Ht.
  - rewrite Ht, !app_assoc, persisted_cleanup_app.
    unfold Store.persisted_cleanup at 1. cbn [fold_left]. unfold restore_cmd.
    rewrite cleanup_step_write, bool_decide_eq_true_2 by reflexivity. reflexivity.
Qed.

(** Cleanup is switched off twice for [B] and once for [C], whose algorithm
    is the empty string, and restored: [B] holds [timeline] again and [C]
    the empty string. *)
Lemma restore_writes_captured_cleanup_witness :
  (for_each (replicate 2 Demo.B)
     (fun s => SnapperSnapshot.prevent_cleanup Demo.tool s false) ;;;
   SnapperSnapshot.restore_cleanup_state Demo.tool Demo.B false) Demo.fresh
    = (Return tt,
       {| snapper_version_ok := true;
          trace := [Exec version_cmd; Exec (disable_cmd Demo.B); Exec (disable_cmd Demo.B);
                    Exec (restore_cmd Demo.B)] |}) /\
  Store.persisted_cleanup
    [Exec version_cmd; Exec (disable_cmd Demo.B); Exec (disable_cmd Demo.B);
     Exec (restore_cmd Demo.B)] ("root", "2") "timeline" = "timeline" /\
  (for_each (replicate 1 Demo.C)
     (fun s => SnapperSnapshot.prevent_cleanup Demo.tool s false) ;;;
   SnapperSnapshot.restore_cleanup_state Demo.tool Demo.C false) Demo.checked
    = (Return tt,
       {| snapper_version_ok := true;
          trace := [Exec (disable_cmd Demo.C); Exec (restore_cmd Demo.C)] |}) /\
  Store.persisted_cleanup
    [Exec (disable_cmd Demo.C); Exec (restore_cmd Demo.C)] ("root", "3") "" = "".
Proof.
  assert (HB : (for_each (replicate 2 Demo.B)
                  (fun s => SnapperSnapshot.prevent_cleanup Demo.tool s false) ;;;
                SnapperSnapshot.restore_cleanup_state Demo.tool Demo.B false) Demo.fresh
               = (Return tt,
                  {| snapper_version_ok := true;
                     trace := [Exec version_cmd; Exec (disable_cmd Demo.B);
                               Exec (disable_cmd Demo.B); Exec (restore_cmd Demo.B)] |}))
    by (vm_compute; reflexivity).
  assert (HC : (for_each (replicate 1 Demo.C)
                  (fun s => SnapperSnapshot.prevent_cleanup Demo.tool s false) ;;;
                SnapperSnapshot.restore_cleanup_state Demo.tool Demo.C false) Demo.checked
               = (Return tt,
                  {| snapper_version_ok := true;
                     trace := [Exec (disable_cmd Demo.C); Exec (restore_cmd Demo.C)] |}))
    by (vm_compute; reflexivity).
  exact (conj HB (conj
    (proj2 (proj2 (proj2
       (restore_writes_captured_cleanup Demo.tool Demo.root_local
          (Demo.info_of 2 None "timeline") 1 Demo.fresh _ "timeline" HB))))
    (conj HC
    (proj2 (proj2 (proj2
       (restore_writes_captured_cleanup Demo.tool Demo.root_local
          (Demo.info_of 3 None "") 0 Demo.checked _ "" HC))))))).
Defined.

(** ** The backup tag *)

Section Tag.

Variable E : Env.

(** A call of [set_backed_up] that returns has left its command and set the
    flag, and nothing else of the object has changed. *)
Lemma set_backed_up_return (s s' : SnapperSnapshot) (dryrun : bool) (w w' : World) :
  SnapperSnapshot.set_backed_up E s dryrun w = (Return s', w') ->
  s' = SnapperSnapshot.assign_is_backed_up s true /\
  trace w' = trace w ++ gate_events w 1 ++ [ev dryrun (backed_up_cmd s)] /\
  snapper_version_ok w' = true.
Proof.
  intros H. now apply (call_return E dryrun) in H.
Qed.

Lemma backed_up_cmd_assign (s : SnapperSnapshot) (v : bool) :
  backed_up_cmd (SnapperSnapshot.assign_is_backed_up s v) = backed_up_cmd s.
Proof. reflexivity. Qed.

End Tag.

Lemma existing_backup_val_init (c : ConfigAttrs) (i : Info) :
  _existing_backup_val (SnapperSnapshot.init c i) =
  PyStr.replace "true" "local" (SnapperSnapshot.stored_tag i).
Proof. apply (join_split ":"). Qed.

(** C3, as it is stated, fails: a snapshot without a tag is marked twice on
    a local repository, and both commands store [local]. *)
Lemma second_mark_stores_local_again :
  trace (snd ((s1 <- SnapperSnapshot.set_backed_up Demo.tool
                       (Demo.snap Demo.root_local 1 None "number") false ;;
               SnapperSnapshot.set_backed_up Demo.tool s1 false) Demo.checked))
  = [Exec ["snapper"; "-c"; "root"; "--jsonout"; "modify"; "--userdata";
           "snapborg_backup=local"; "1"];
     Exec ["snapper"; "-c"; "root"; "--jsonout"; "modify"; "--userdata";
           "snapborg_backup=local"; "1"]] /\
  last (trace (snd ((s1 <- SnapperSnapshot.set_backed_up Demo.tool
                             (Demo.snap Demo.root_local 1 None "number") false ;;
                     SnapperSnapshot.set_backed_up Demo.tool s1 false) Demo.checked)))
  <> Some (Exec ["snapper"; "-c"; "root"; "--jsonout"; "modify"; "--userdata";
                 "snapborg_backup=local:local"; "1"]).
Proof. split; [vm_compute; reflexivity|vm_compute; discriminate]. Qed.

Lemma write_of_userdata (s : SnapperSnapshot) (kv : string) :
  Store.write_of (modify_cmd s "--userdata" kv) =
  Some (name (config s), PyStr.of_int (SnapperSnapshot.get_number s), Store.SetUserdata kv).
Proof. unfold modify_cmd, args_new. now destruct (name (config s)). Qed.

Lemma after_prefix_app (p v : string) : Store.after_prefix p (p +:+ v) = Some v.
Proof.
  induction p as [|a p IH]; [now destruct v|].
  change (String a p +:+ v) with (String a (p +:+ v)). simpl.
  now rewrite Ascii.eqb_refl.
Qed.

(** A tag command that was run decides the tag of its snapshot. *)
Lemma persisted_tag_last (tr : list Event) (s : SnapperSnapshot) (v init : string) :
  Store.persisted_tag (tr ++ [Exec (modify_cmd s "--userdata" ("snapborg_backup=" +:+ v))])
    (Store.target s) init = v.
Proof.
  unfold Store.persisted_tag. rewrite fold_left_app. cbn [fold_left].
  unfold Store.tag_step. rewrite write_of_userdata.
  rewrite bool_decide_eq_true_2 by reflexivity.
  now rewrite after_prefix_app.
Qed.


(** A snapshot constructed from a record without a tag counts as not backed
    up, whatever the repository is. *)
Lemma init_untagged (c : ConfigAttrs) (i : Info) :
  SnapperSnapshot.stored_tag i = "" ->
  SnapperSnapshot.is_backed_up (SnapperSnapshot.init c i) = false.
Proof.
  intros H. unfold SnapperSnapshot.is_backed_up, SnapperSnapshot.init.
  cbn [_is_backed_up]. unfold SnapperSnapshot.sb_backup_vals. rewrite H.
  now destruct (PyStr.startswith _ _).
Qed.

(** C4, as it is stated, fails: a snapshot tagged [local] on a local
    repository counts as backed up; its tag is purged on a real run, which
    hands the command to the tool and returns; the object as the call
    leaves it still counts as backed up. *)
Lemma purge_keeps_flag :
  SnapperSnapshot.purge_userdata Demo.tool
    (Demo.snap Demo.root_local 2 (Some "local") "timeline") false Demo.checked
  = (Return (Demo.snap Demo.root_local 2 (Some "local") "timeline"),
     {| snapper_version_ok := true;
        trace := [Exec ["snapper"; "-c"; "root"; "--jsonout"; "modify"; "--userdata";
                        "snapborg_backup="; "2"]] |}) /\
  SnapperSnapshot.is_backed_up (Demo.snap Demo.root_local 2 (Some "local") "timeline")
  = true.
Proof. split; vm_compute; reflexivity. Qed.

(** C4, amended: a call of [purge_userdata] that returns has left the
    command that sets the tag of the snapshot to the empty string, so that
    on a real run the snapshot manager then holds the empty tag, and has
    left the object as it was, so that [is_backed_up] answers as before.  A
    snapshot constructed from a record with the empty tag is not backed up
    for a local nor for a remote repository, also when the tag held foreign
    tokens before. *)
Theorem purge_then_construct
    (E : Env) (s s' : SnapperSnapshot) (dryrun : bool) (w w' : World) :
  SnapperSnapshot.purge_userdata E s dryrun w = (Return s', w') ->
  s' = s /\
  trace w' = trace w ++ gate_events w 1 ++
    [ev dryrun (args_new ["modify"; "--userdata"; "snapborg_backup=";
                          PyStr.of_int (SnapperSnapshot.get_number s)]
                  (Some (name (config s))))] /\
  (dryrun = false -> forall init, Store.persisted_tag (trace w') (Store.target s) init = "") /\
  (forall c i, SnapperSnapshot.stored_tag i = "" ->
     SnapperSnapshot.is_backed_up (SnapperSnapshot.init c i) = false).
Proof.
  intros H. apply (call_return E dryrun) in H as (-> & Ht & _).
  split; [reflexivity|]. split; [exact Ht|]. split; [|exact init_untagged].
  intros -> init. rewrite Ht, app_assoc.
  apply (persisted_tag_last _ s "").
Qed.

(** The tag [true:remote:foreign] of snapshot 3 is purged on a real run; a
    snapshot constructed from the empty tag is backed up neither to the
    local nor to the remote repository. *)
Lemma purge_then_construct_witness :
  SnapperSnapshot.purge_userdata Demo.tool
    (Demo.snap Demo.root_local 3 (Some "true:remote:foreign") "") false Demo.checked
  = (Return (Demo.snap Demo.root_local 3 (Some "true:remote:foreign") ""),
     {| snapper_version_ok := true;
        trace := [Exec ["snapper"; "-c"; "root"; "--jsonout"; "modify"; "--userdata";
                        "snapborg_backup="; "3"]] |}) /\
  Store.persisted_tag
    [Exec ["snapper"; "-c"; "root"; "--jsonout"; "modify"; "--userdata";
           "snapborg_backup="; "3"]] ("root", "3") "true:remote:foreign" = "" /\
  SnapperSnapshot.is_backed_up (Demo.snap Demo.root_local 3 (Some "") "") = false /\
  SnapperSnapshot.is_backed_up (Demo.snap Demo.root_remote 3 (Some "") "") = false.
Proof.
  assert (H : SnapperSnapshot.purge_userdata Demo.tool
                (Demo.snap Demo.root_local 3 (Some "true:remote:foreign") "") false
                Demo.checked
              = (Return (Demo.snap Demo.root_local 3 (Some "true:remote:foreign") ""),
                 {| snapper_version_ok := true;
                    trace := [Exec ["snapper"; "-c"; "root"; "--jsonout"; "modify";
                                    "--userdata"; "snapborg_backup="; "3"]] |}))
    by (vm_compute; reflexivity).
  destruct (purge_then_construct Demo.tool _ _ false Demo.checked _ H) as (_ & _ & Hp & Hc).
  exact (conj H (conj (Hp eq_refl "true:remote:foreign")
           (conj (Hc Demo.root_local (Demo.info_of 3 (Some "") "") eq_refl)
                 (Hc Demo.root_remote (Demo.info_of 3 (Some "") "") eq_refl)))).
Defined.

(** ** The backed-up test *)

(** C5, as it is stated, fails: for the stored value [true:remote], which
    is not exactly [true], the snapshot counts as backed up to a local
    repository, while the token set of the unchanged value holds no [local];
    and the token [untrue] is not taken as it stands. *)
Lemma is_backed_up_normalizes_inside :
  SnapperSnapshot.is_backed_up (Demo.snap Demo.root_local 1 (Some "true:remote") "") = true /\
  Spec.isBackedUp "true:remote" false = false /\
  SnapperSnapshot.sb_backup_vals (Demo.info_of 1 (Some "untrue") "") = ["unlocal"] /\
  Spec.tokens "untrue" = ["untrue"].
Proof. repeat split. Qed.

(** C5, amended: the tokens the test looks at are the colon-separated tokens
    of the stored value with every occurrence of [true] inside each of them
    replaced by [local].  So the snapshot counts as backed up to a remote
    repository exactly when a token of the stored value is [remote], and to
    a local one exactly when a token of the stored value is [local] or
    [true]. *)
Theorem is_backed_up_tokens (c : ConfigAttrs) (i : Info) :
  SnapperSnapshot.sb_backup_vals i =
    List.map (PyStr.replace "true" "local")
      (PyStr.split ":" (SnapperSnapshot.stored_tag i)) /\
  (SnapperSnapshot.is_backed_up (SnapperSnapshot.init c i) = true <->
   if PyStr.startswith (repopath (repo c)) "ssh://"
   then In "remote" (PyStr.split ":" (SnapperSnapshot.stored_tag i))
   else In "local" (PyStr.split ":" (SnapperSnapshot.stored_tag i)) \/
        In "true" (PyStr.split ":" (SnapperSnapshot.stored_tag i))).
Proof.
  assert (Hv : SnapperSnapshot.sb_backup_vals i =
               List.map (PyStr.replace "true" "local")
                 (PyStr.split ":" (SnapperSnapshot.stored_tag i)))
    by apply split_replace_true.
  split; [exact Hv|].
  unfold SnapperSnapshot.is_backed_up, SnapperSnapshot.init. cbn [_is_backed_up].
  rewrite contains_In, Hv, in_map_iff.
  destruct (PyStr.startswith _ _).
  - split.
    + intros [t [Ht Hin]]. apply (proj1 (replace_true_eq_remote t)) in Ht. now subst.
    + intros Hin. exists "remote". now split.
  - split.
    + intros [t [Ht Hin]]. apply (proj1 (replace_true_eq_local t)) in Ht as [->| ->]; auto.
    + intros [Hin|Hin]; [exists "local"|exists "true"]; now split.
Qed.

Lemma set_backed_up_world (E : Env) (s : SnapperSnapshot) (dryrun : bool) (w : World) :
  snd (SnapperSnapshot.set_backed_up E s dryrun w) =
  snd (run_snapper E
         ["modify"; "--userdata"; "snapborg_backup=" +:+ SnapperSnapshot.new_sb_backup_val s;
          PyStr.of_int (SnapperSnapshot.get_number s)]
         (Some (name (config s))) dryrun w).
Proof.
  unfold SnapperSnapshot.set_backed_up, bind, ret.
  now destruct (run_snapper E _ _ dryrun w) as [[r|e] w1].
Qed.

Lemma set_backed_up_result (E : Env) (s : SnapperSnapshot) (dryrun : bool) (w : World) :
  SnapperSnapshot.set_backed_up E s dryrun w =
  (match fst (run_snapper E
                ["modify"; "--userdata";
                 "snapborg_backup=" +:+ SnapperSnapshot.new_sb_backup_val s;
                 PyStr.of_int (SnapperSnapshot.get_number s)]
                (Some (name (config s))) dryrun w) with
   | Return _ => Return (SnapperSnapshot.assign_is_backed_up s true)
   | Raise e => Raise e
   end,
   snd (run_snapper E
          ["modify"; "--userdata";
           "snapborg_backup=" +:+ SnapperSnapshot.new_sb_backup_val s;
           PyStr.of_int (SnapperSnapshot.get_number s)]
          (Some (name (config s))) dryrun w)).
Proof.
  unfold SnapperSnapshot.set_backed_up, bind, ret.
  now destruct (run_snapper E _ _ dryrun w) as [[r|e] w1].
Qed.

(** C10: the tag a snapshot remembers from its construction is the stored
    value with every occurrence of [true] replaced by [local], found by the
    scan from the left that [replace] is, so that [true] does not occur in
    it any more; the command of [set_backed_up]
    stores that string, joined with the new token when it is not empty, and
    a real run hands this command to the tool.  The stored value [untrue],
    a foreign token, is stored again as [unlocal:local]. *)
Theorem mark_stores_normalized_tag (E : Env) (c : ConfigAttrs) (i : Info) :
  _existing_backup_val (SnapperSnapshot.init c i) =
    PyStr.replace "true" "local" (SnapperSnapshot.stored_tag i) /\
  PyStr.occurs "true" (_existing_backup_val (SnapperSnapshot.init c i)) = false /\
  backed_up_cmd (SnapperSnapshot.init c i) =
    args_new ["modify"; "--userdata";
              "snapborg_backup=" +:+
                (if String.eqb (PyStr.replace "true" "local" (SnapperSnapshot.stored_tag i)) ""
                 then if PyStr.startswith (repopath (repo c)) "ssh://"
                      then "remote" else "local"
                 else PyStr.replace "true" "local" (SnapperSnapshot.stored_tag i) +:+ ":" +:+
                      (if PyStr.startswith (repopath (repo c)) "ssh://"
                       then "remote" else "local"));
              PyStr.of_int (number i)] (Some (name c)) /\
  (forall w, snapper_version_ok w = true ->
     snd (SnapperSnapshot.set_backed_up E (SnapperSnapshot.init c i) false w)
     = emit (Exec (backed_up_cmd (SnapperSnapshot.init c i))) w) /\
  (forall r, PyStr.replace "true" "local" ("true" +:+ r)
             = "local" +:+ PyStr.replace "true" "local" r) /\
  (forall a r, String.prefix "true" (String a r) = false ->
     PyStr.replace "true" "local" (String a r)
     = String a (PyStr.replace "true" "local" r)) /\
  backed_up_cmd (Demo.snap Demo.root_local 1 (Some "untrue") "") =
    ["snapper"; "-c"; "root"; "--jsonout"; "modify"; "--userdata";
     "snapborg_backup=unlocal:local"; "1"].
Proof.
  split; [apply existing_backup_val_init|].
  split; [rewrite existing_backup_val_init; apply replace_true_no_true|].
  split.
  { unfold backed_up_cmd, modify_cmd, SnapperSnapshot.new_sb_backup_val.
    rewrite existing_backup_val_init. reflexivity. }
  split.
  { intros w Hw. unfold SnapperSnapshot.set_backed_up, bind, ret.
    rewrite run_snapper_checked_exec by assumption.
    now destruct (check_output E _ _) as [out|];
      [destruct (String.eqb _ _); [|destruct (json_loads E _)]|]. }
  split; [exact replace_true_hit|].
  split; [exact replace_true_miss|reflexivity].
Qed.

(** ** Dry runs *)

(** C8, as it is stated, fails: in a process that has not run [snapper]
    yet, a dry run of a command runs [snapper --version] before it prints
    the command. *)
Lemma dry_run_runs_version_check :
  run_snapper Demo.tool ["modify"; "--userdata"; "snapborg_backup=local"; "1"]
    (Some "root") true Demo.fresh
  = (Return None,
     {| snapper_version_ok := true;
        trace := [Exec ["snapper"; "--version"];
                  Print ["snapper"; "-c"; "root"; "--jsonout"; "modify"; "--userdata";
                         "snapborg_backup=local"; "1"]] |}).
Proof. vm_compute. reflexivity. Qed.

(** C8, amended: on a dry run the command itself is never run, it is
    printed, and the call returns no data.  Once the version check has
    passed, a dry run does nothing else, and [set_backed_up] returns with the
    flag set.  In a process where the check has not passed yet, the dry run
    first runs [snapper --version]: when the check fails its exception
    leaves the call and the flag is not set; when it passes it is
    remembered, the command is printed and the call ends as before. *)
Theorem dry_run_prints_after_version_check
    (E : Env) (args : list string) (cfg : option string) (s : SnapperSnapshot) (w : World) :
  run_snapper E args cfg true w =
    (if snapper_version_ok w
     then (Return None, emit (Print (args_new args cfg)) w)
     else match fst (check_snapper E w) with
          | Return _ =>
              (Return None,
               emit (Print (args_new args cfg)) (set_version_ok (emit (Exec version_cmd) w)))
          | Raise e => (Raise e, emit (Exec version_cmd) w)
          end) /\
  SnapperSnapshot.set_backed_up E s true w =
    (if snapper_version_ok w
     then (Return (SnapperSnapshot.assign_is_backed_up s true),
           emit (Print (backed_up_cmd s)) w)
     else match fst (check_snapper E w) with
          | Return _ =>
              (Return (SnapperSnapshot.assign_is_backed_up s true),
               emit (Print (backed_up_cmd s)) (set_version_ok (emit (Exec version_cmd) w)))
          | Raise e => (Raise e, emit (Exec version_cmd) w)
          end) /\
  SnapperSnapshot.is_backed_up (SnapperSnapshot.assign_is_backed_up s true) = true.
Proof.
  assert (Hrun : forall a c,
            run_snapper E a c true w =
            (if snapper_version_ok w
             then (Return None, emit (Print (args_new a c)) w)
             else match fst (check_snapper E w) with
                  | Return _ =>
                      (Return None,
                       emit (Print (args_new a c))
                         (set_version_ok (emit (Exec version_cmd) w)))
                  | Raise e => (Raise e, emit (Exec version_cmd) w)
                  end)).
  { intros a c. unfold run_snapper, bind.
    destruct (snapper_version_ok w); [reflexivity|].
    pose proof (check_snapper_world E w) as Hw.
    destruct (check_snapper E w) as [[[]|e] w1]; simpl in Hw; subst w1; reflexivity. }
  split; [apply Hrun|]. split; [|reflexivity].
  rewrite set_backed_up_result, Hrun.
  destruct (snapper_version_ok w); [reflexivity|].
  now destruct (fst (check_snapper E w)).
Qed.

(** ** The snapshot list *)

Section Catalog.

Variable E : Env.

(** A list that was loaded and is not empty is returned without a command. *)
Lemma get_snapshots_cached (self : SnapperConfig) (s : SnapperSnapshot)
    (l : list SnapperSnapshot) (w : World) :
  _snapshots self = Some (s :: l) ->
  SnapperConfig.get_snapshots E self w = (Return (self, s :: l), w).
Proof. intros H. unfold SnapperConfig.get_snapshots. now rewrite H. Qed.

(** What a call that returns has built when no list, or the empty list, was
    stored: one snapshot per record with a number other than 0, in the order
    of the records, after running the [list] command. *)
Lemma get_snapshots_loaded (self self' : SnapperConfig) (l : list SnapperSnapshot)
    (w w' : World) :
  _snapshots self = None \/ _snapshots self = Some [] ->
  SnapperConfig.get_snapshots E self w = (Return (self', l), w') ->
  _snapshots self' = Some l /\
  attrs self' = attrs self /\
  (exists infos,
     l = List.map (SnapperSnapshot.init (attrs self))
           (List.filter (fun i => negb (number i =? 0)%Z) infos)) /\
  Forall (fun s => SnapperSnapshot.get_number s <> 0%Z) l /\
  trace w' = trace w ++ gate_events w 1
               ++ [Exec (args_new ["list"; "--disable-used-space"] (Some (name (attrs self))))].
Proof.
  intros Hnone H.
  assert (Hload : SnapperConfig.get_snapshots E self =
            (r <- run_snapper E ["list"; "--disable-used-space"]
                    (Some (name (attrs self))) false ;;
             infos <- SnapperConfig.subscript r (name (attrs self)) ;;
             ret ({| attrs := attrs self;
                     _snapshots :=
                       Some (List.map (SnapperSnapshot.init (attrs self))
                               (List.filter (fun i => negb (number i =? 0)%Z) infos)) |},
                  List.map (SnapperSnapshot.init (attrs self))
                    (List.filter (fun i => negb (number i =? 0)%Z) infos))))
    by (unfold SnapperConfig.get_snapshots; now destruct Hnone as [-> | ->]).
  rewrite Hload in H. clear Hload.
  unfold bind at 1 in H.
  destruct (run_snapper E _ _ false w) as [[r|e] w1] eqn:Hr; [|discriminate].
  apply run_snapper_return in Hr as [Ht _].
  unfold bind, ret in H.
  destruct (SnapperConfig.subscript r (name (attrs self)) w1) as [[infos|e] w2] eqn:Hs;
    [|discriminate].
  assert (w2 = w1) as ->.
  { unfold SnapperConfig.subscript, ret, raise in Hs.
    destruct r as [[m|m]|]; [destruct (m !! _)|destruct (m !! _) as [[|]|]|];
      now inversion Hs. }
  injection H as <- <- <-. repeat split; try assumption.
  - now exists infos.
  - apply List.Forall_forall. intros s Hin. apply in_map_iff in Hin as [i [<- Hi]].
    apply filter_In in Hi as [_ Hi]. unfold SnapperSnapshot.get_number. cbn [info SnapperSnapshot.init].
    apply negb_true_iff, Z.eqb_neq in Hi. exact Hi.
Qed.

End Catalog.

(** C7: the claim holds for a list that is not empty, and the code breaks it
    for the empty one.  The tool reports the live state only; the first call
    of [get_snapshots] runs the [list] command and stores the empty list, and
    the second call, on the object the first one left, runs the command
    again. *)
Theorem empty_snapshot_list_is_loaded_again :
  let E := Demo.env Demo.listing_live [] in
  let list_cmd := ["snapper"; "-c"; "root"; "--jsonout"; "list"; "--disable-used-space"] in
  let loaded := {| attrs := attrs Demo.root; _snapshots := Some [] |} in
  SnapperConfig.get_snapshots E Demo.root Demo.checked
    = (Return (loaded, []), {| snapper_version_ok := true; trace := [Exec list_cmd] |}) /\
  SnapperConfig.get_snapshots E loaded
    {| snapper_version_ok := true; trace := [Exec list_cmd] |}
    = (Return (loaded, []),
       {| snapper_version_ok := true; trace := [Exec list_cmd; Exec list_cmd] |}).
Proof. split; vm_compute; reflexivity. Qed.

(** * Further properties *)

(** ** Numbers and command lines *)

(** The decimal form of an integer determines it. *)
Lemma of_int_inj (a b : Z) : PyStr.of_int a = PyStr.of_int b -> a = b.
Proof.
  unfold PyStr.of_int. intros H.
  assert (Hn : forall z, Z.to_int z <> Decimal.Pos Decimal.Nil /\
                         Z.to_int z <> Decimal.Neg Decimal.Nil).
  { intros [|p|p]; simpl; split; try discriminate;
      intros [= Hp]; now apply DecimalPos.Unsigned.to_uint_nonnil in Hp. }
  apply DecimalZ.to_int_inj.
  apply (f_equal NilZero.int_of_string) in H.
  rewrite !NilZero.isi in H by apply Hn. now injection H.
Qed.

Lemma append_inj_l (p a b : string) : p +:+ a = p +:+ b -> a = b.
Proof.
  induction p as [|c p IH]; intros H; [exact H|].
  apply IH. now injection H.
Qed.

Lemma length_append (a b : string) :
  String.length (a +:+ b) = String.length a + String.length b.
Proof.
  induction a as [|c a IH]; [reflexivity|].
  change (String c a +:+ b) with (String c (a +:+ b)). simpl. now rewrite IH.
Qed.

Lemma append_inj_r (a b q : string) : a +:+ q = b +:+ q -> a = b.
Proof.
  revert b. induction a as [|c a IH]; intros [|d b] H.
  - reflexivity.
  - apply (f_equal String.length) in H. rewrite !length_append in H.
    simpl in H. lia.
  - apply (f_equal String.length) in H. rewrite !length_append in H.
    simpl in H. lia.
  - change (String c a +:+ q) with (String c (a +:+ q)) in H.
    change (String d b +:+ q) with (String d (b +:+ q)) in H.
    injection H as -> H. f_equal. now apply IH.
Qed.

(** X20: two commands of snapshot methods are the same command line only
    when they address the same configuration and the same snapshot number,
    and set the same field to the same value.  Hence snapshots of one
    configuration with different numbers are different snapshots to the
    tool. *)
Theorem modify_cmd_identifies_snapshot
    (s1 s2 : SnapperSnapshot) (f1 f2 v1 v2 : string) :
  modify_cmd s1 f1 v1 = modify_cmd s2 f2 v2 ->
  name (config s1) = name (config s2) /\
  SnapperSnapshot.get_number s1 = SnapperSnapshot.get_number s2 /\
  f1 = f2 /\ v1 = v2.
Proof.
  unfold modify_cmd, args_new. intros H.
  destruct (name (config s1)) as [|a1 n1], (name (config s2)) as [|a2 n2];
    cbn [app] in H.
  - injection H as -> -> H. apply of_int_inj in H. now repeat split.
  - discriminate.
  - discriminate.
  - injection H as -> -> -> -> H. apply of_int_inj in H. now repeat split.
Qed.

Lemma modify_cmd_identifies_snapshot_witness :
  modify_cmd Demo.A "--cleanup-algorithm" "" = disable_cmd Demo.A /\
  SnapperSnapshot.get_number Demo.A = SnapperSnapshot.get_number Demo.A.
Proof.
  assert (H : modify_cmd Demo.A "--cleanup-algorithm" "" = disable_cmd Demo.A)
    by reflexivity.
  exact (conj H (proj1 (proj2 (modify_cmd_identifies_snapshot Demo.A Demo.A _ _ _ _ H)))).
Defined.

(** ** Paths and settings *)

(** X14: two snapshots of one configuration whose paths are the same string
    have the same number: within a configuration the path tells the
    snapshots apart. *)
Theorem snapshot_path_determines_number
    (format_records : list Info -> string) (s1 s2 : SnapperSnapshot) (p : string) :
  config s1 = config s2 ->
  SnapperSnapshot.get_path format_records s1 = Return p ->
  SnapperSnapshot.get_path format_records s2 = Return p ->
  SnapperSnapshot.get_number s1 = SnapperSnapshot.get_number s2.
Proof.
  unfold SnapperSnapshot.get_path. intros -> H1 H2.
  destruct (settings_item _ _) as [v|e]; [|discriminate].
  injection H1 as <-. injection H2 as H.
  apply append_inj_l, append_inj_l, append_inj_r in H.
  now apply of_int_inj in H.
Qed.

Lemma snapshot_path_determines_number_witness :
  SnapperSnapshot.get_path Demo.str_records
    (SnapperSnapshot.init Demo.home (Demo.info_of 12 None "timeline"))
  = Return "/home/.snapshots/12/snapshot" /\
  SnapperSnapshot.get_number
    (SnapperSnapshot.init Demo.home (Demo.info_of 12 None "timeline"))
  = SnapperSnapshot.get_number
      (SnapperSnapshot.init Demo.home (Demo.info_of 12 (Some "local") "")).
Proof.
  assert (H1 : SnapperSnapshot.get_path Demo.str_records
                 (SnapperSnapshot.init Demo.home (Demo.info_of 12 None "timeline"))
               = Return "/home/.snapshots/12/snapshot") by (vm_compute; reflexivity).
  assert (H2 : SnapperSnapshot.get_path Demo.str_records
                 (SnapperSnapshot.init Demo.home (Demo.info_of 12 (Some "local") ""))
               = Return "/home/.snapshots/12/snapshot") by (vm_compute; reflexivity).
  exact (conj H1
    (snapshot_path_determines_number Demo.str_records _ _ _ eq_refl H1 H2)).
Defined.

(** X15: when the tool prints nothing for [get-config], [get] still returns
    a configuration, the one whose settings are [None]; on it
    [is_timeline_enabled] and [get_path] raise [TypeError], and so does
    [get_path] of every snapshot of it. *)
Theorem get_without_output_has_no_settings
    (E : Env) (config_name : string) (r : Repo) (w : World) (out : string) :
  snapper_version_ok w = true ->
  check_output E (trace w) (args_new ["get-config"] (Some config_name)) = Some out ->
  strip E out = "" ->
  SnapperConfig.get E config_name r w
    = (Return (SnapperConfig.init config_name None r),
       emit (Exec (args_new ["get-config"] (Some config_name))) w) /\
  SnapperConfig.is_timeline_enabled (SnapperConfig.init config_name None r)
    = Raise TypeError /\
  SnapperConfig.get_path (SnapperConfig.init config_name None r) = Raise TypeError /\
  (forall format_records i,
     SnapperSnapshot.get_path format_records
       (SnapperSnapshot.init (attrs (SnapperConfig.init config_name None r)) i)
     = Raise TypeError).
Proof.
  intros Hok Hout Hs. repeat split.
  unfold SnapperConfig.get, bind, ret.
  rewrite run_snapper_checked_exec by assumption. now rewrite Hout, Hs.
Qed.

Lemma get_without_output_has_no_settings_witness :
  SnapperConfig.get Demo.tool "home" Demo.local_repo Demo.checked
    = (Return (SnapperConfig.init "home" None Demo.local_repo),
       {| snapper_version_ok := true;
          trace := [Exec ["snapper"; "-c"; "home"; "--jsonout"; "get-config"]] |}) /\
  SnapperConfig.is_timeline_enabled (SnapperConfig.init "home" None Demo.local_repo)
    = Raise TypeError.
Proof.
  destruct (get_without_output_has_no_settings Demo.tool "home" Demo.local_repo
              Demo.checked "" eq_refl eq_refl eq_refl) as (Hg & Ht & _).
  exact (conj Hg Ht).
Defined.

(** X16: with settings that are a mapping, [is_timeline_enabled] returns
    true exactly when [TIMELINE_CREATE] is the string [yes], returns false
    for any other value, and raises [KeyError] when the key is missing. *)
Theorem timeline_enabled_iff_yes (self : SnapperConfig) (m : gmap string string) :
  settings (attrs self) = Some (JSettings m) ->
  (SnapperConfig.is_timeline_enabled self = Return true <->
   m !! "TIMELINE_CREATE" = Some "yes") /\
  (forall v, m !! "TIMELINE_CREATE" = Some v -> v <> "yes" ->
     SnapperConfig.is_timeline_enabled self = Return false) /\
  (m !! "TIMELINE_CREATE" = None ->
   SnapperConfig.is_timeline_enabled self = Raise (KeyError "TIMELINE_CREATE")).
Proof.
  intros Hs. unfold SnapperConfig.is_timeline_enabled, settings_item. rewrite Hs.
  destruct (m !! "TIMELINE_CREATE") as [v|] eqn:Hv.
  - destruct (String.eqb_spec v "yes") as [->|Hne].
    + split; [now split|]. split; [|discriminate].
      intros v [= <-] Hne. congruence.
    + split; [split; [discriminate|intros [= ->]; congruence]|].
      split; [|discriminate]. reflexivity.
  - split; [split; discriminate|]. split; [discriminate|reflexivity].
Qed.

Lemma timeline_enabled_iff_yes_witness :
  SnapperConfig.is_timeline_enabled {| attrs := Demo.home; _snapshots := None |}
  = Return true.
Proof.
  exact (proj2 (proj1 (timeline_enabled_iff_yes
                        {| attrs := Demo.home; _snapshots := None |}
                        Demo.home_settings eq_refl)) eq_refl).
Defined.

(** ** Tags that are read back *)

(** Where nothing is to be replaced, nothing changes. *)
Lemma replace_true_id (s : string) :
  PyStr.occurs "true" s = false -> PyStr.replace "true" "local" s = s.
Proof.
  induction s as [|c r IH]; [reflexivity|].
  rewrite occurs_cons. intros H. apply orb_false_iff in H as [Hp Hr].
  rewrite replace_true_miss by assumption. now rewrite IH.
Qed.

Lemma replace_true_idem (s : string) :
  PyStr.replace "true" "local" (PyStr.replace "true" "local" s)
  = PyStr.replace "true" "local" s.
Proof. apply replace_true_id, replace_true_no_true. Qed.

Lemma split_app_sep (c : ascii) (a b : string) :
  PyStr.split c (a +:+ String c b) = PyStr.split c a ++ PyStr.split c b.
Proof.
  induction a as [|x a IH].
  - change ("" +:+ String c b) with (String c b). now rewrite split_sep.
  - change (String x a +:+ String c b) with (String x (a +:+ String c b)).
    destruct (Ascii.eqb_spec x c) as [->|Hne].
    + now rewrite !split_sep, IH.
    + rewrite !split_keep by assumption. rewrite IH.
      pose proof (split_nonempty c a) as Hn.
      now destruct (PyStr.split c a).
Qed.

(** The token [set_backed_up] adds. *)
Lemma new_sb_backup_val_init (c : ConfigAttrs) (i : Info) :
  SnapperSnapshot.new_sb_backup_val (SnapperSnapshot.init c i) =
  if String.eqb (PyStr.replace "true" "local" (SnapperSnapshot.stored_tag i)) ""
  then (if PyStr.startswith (repopath (repo c)) "ssh://" then "remote" else "local")
  else PyStr.replace "true" "local" (SnapperSnapshot.stored_tag i) +:+ ":" +:+
       (if PyStr.startswith (repopath (repo c)) "ssh://" then "remote" else "local").
Proof.
  unfold SnapperSnapshot.new_sb_backup_val. rewrite existing_backup_val_init.
  reflexivity.
Qed.

(** The tokens of a record that holds the value [set_backed_up] stored: the
    tokens of the record the snapshot was constructed from, unless its tag
    was empty, followed by the new token. *)
Lemma sb_backup_vals_marked (c : ConfigAttrs) (i i' : Info) :
  SnapperSnapshot.stored_tag i' =
    SnapperSnapshot.new_sb_backup_val (SnapperSnapshot.init c i) ->
  SnapperSnapshot.sb_backup_vals i' =
    (if String.eqb (PyStr.replace "true" "local" (SnapperSnapshot.stored_tag i)) ""
     then [] else SnapperSnapshot.sb_backup_vals i)
    ++ [if PyStr.startswith (repopath (repo c)) "ssh://" then "remote" else "local"].
Proof.
  intros H. unfold SnapperSnapshot.sb_backup_vals at 1.
  rewrite H, new_sb_backup_val_init.
  destruct (String.eqb _ "").
  - now destruct (PyStr.startswith _ _).
  - rewrite split_replace_true.
    change (":" +:+ ?t) with (String ":" t).
    rewrite split_app_sep, map_app, <- split_replace_true, replace_true_idem.
    now destruct (PyStr.startswith _ _).
Qed.

(** X17: the value that [set_backed_up] stores reads back as backed up: a
    snapshot constructed for the same configuration from a record that holds
    this value counts as backed up. *)
Theorem marked_tag_reads_as_backed_up (c : ConfigAttrs) (i i' : Info) :
  SnapperSnapshot.stored_tag i' =
    SnapperSnapshot.new_sb_backup_val (SnapperSnapshot.init c i) ->
  SnapperSnapshot.is_backed_up (SnapperSnapshot.init c i') = true.
Proof.
  intros H. unfold SnapperSnapshot.is_backed_up, SnapperSnapshot.init.
  cbn [_is_backed_up]. rewrite (sb_backup_vals_marked c i i' H).
  apply contains_In, in_or_app. right. now left.
Qed.

Lemma marked_tag_reads_as_backed_up_witness :
  SnapperSnapshot.new_sb_backup_val (Demo.snap Demo.root_remote 3 (Some "true:x") "")
  = "local:x:remote" /\
  SnapperSnapshot.is_backed_up (Demo.snap Demo.root_remote 3 (Some "local:x:remote") "")
  = true.
Proof.
  exact (conj eq_refl
    (marked_tag_reads_as_backed_up Demo.root_remote
       (Demo.info_of 3 (Some "true:x") "") (Demo.info_of 3 (Some "local:x:remote") "")
       eq_refl)).
Defined.

(** X18: marking adds and takes nothing away.  The tokens read back from the
    stored value are the tokens the snapshot had, followed by the new one,
    so that a snapshot that counted as backed up, for a local or for a
    remote repository, before [set_backed_up] stored its value still does
    when it is constructed from that value. *)
Theorem marking_keeps_backed_up (c c' : ConfigAttrs) (i i' : Info) :
  SnapperSnapshot.stored_tag i' =
    SnapperSnapshot.new_sb_backup_val (SnapperSnapshot.init c i) ->
  SnapperSnapshot.is_backed_up (SnapperSnapshot.init c' i) = true ->
  SnapperSnapshot.sb_backup_vals i' =
    SnapperSnapshot.sb_backup_vals i
    ++ [if PyStr.startswith (repopath (repo c)) "ssh://" then "remote" else "local"] /\
  SnapperSnapshot.is_backed_up (SnapperSnapshot.init c' i') = true.
Proof.
  intros H Hb. pose proof (sb_backup_vals_marked c i i' H) as Hv.
  unfold SnapperSnapshot.is_backed_up, SnapperSnapshot.init in Hb |- *.
  cbn [_is_backed_up] in Hb |- *.
  destruct (String.eqb_spec (PyStr.replace "true" "local" (SnapperSnapshot.stored_tag i)) "")
    as [He|Hne].
  - exfalso. unfold SnapperSnapshot.sb_backup_vals in Hb. rewrite He in Hb.
    now destruct (PyStr.startswith (repopath (repo c')) "ssh://").
  - split; [exact Hv|]. rewrite Hv. apply contains_In, in_or_app. left.
    now apply contains_In.
Qed.

Lemma marking_keeps_backed_up_witness :
  SnapperSnapshot.is_backed_up (Demo.snap Demo.root_local 3 (Some "true:x") "") = true /\
  SnapperSnapshot.sb_backup_vals (Demo.info_of 3 (Some "local:x:remote") "")
  = ["local"; "x"; "remote"] /\
  SnapperSnapshot.is_backed_up (Demo.snap Demo.root_local 3 (Some "local:x:remote") "")
  = true.
Proof.
  exact (conj eq_refl
    (marking_keeps_backed_up Demo.root_remote Demo.root_local
       (Demo.info_of 3 (Some "true:x") "") (Demo.info_of 3 (Some "local:x:remote") "")
       eq_refl eq_refl)).
Defined.

(** X19: reading the tag is stable.  A snapshot constructed from a record
    that holds the tag another snapshot remembers has the same tokens and
    remembers the same tag, and counts as backed up for a repository exactly
    when the other does. *)
Theorem remembered_tag_is_stable (c c' : ConfigAttrs) (i i' : Info) :
  SnapperSnapshot.stored_tag i' = _existing_backup_val (SnapperSnapshot.init c i) ->
  SnapperSnapshot.sb_backup_vals i' = SnapperSnapshot.sb_backup_vals i /\
  _existing_backup_val (SnapperSnapshot.init c' i')
    = _existing_backup_val (SnapperSnapshot.init c i) /\
  SnapperSnapshot.is_backed_up (SnapperSnapshot.init c' i')
    = SnapperSnapshot.is_backed_up (SnapperSnapshot.init c' i).
Proof.
  intros H. rewrite existing_backup_val_init in H.
  assert (Hv : SnapperSnapshot.sb_backup_vals i' = SnapperSnapshot.sb_backup_vals i).
  { unfold SnapperSnapshot.sb_backup_vals. now rewrite H, replace_true_idem. }
  split; [exact Hv|]. split.
  - rewrite !existing_backup_val_init. now rewrite H, replace_true_idem.
  - unfold SnapperSnapshot.is_backed_up, SnapperSnapshot.init. cbn [_is_backed_up].
    now rewrite Hv.
Qed.

Lemma remembered_tag_is_stable_witness :
  _existing_backup_val (Demo.snap Demo.root_local 1 (Some "untrue:true") "")
  = "unlocal:local" /\
  SnapperSnapshot.sb_backup_vals (Demo.info_of 1 (Some "unlocal:local") "")
  = SnapperSnapshot.sb_backup_vals (Demo.info_of 1 (Some "untrue:true") "").
Proof.
  exact (conj eq_refl
    (proj1 (remembered_tag_is_stable Demo.root_local Demo.root_remote
              (Demo.info_of 1 (Some "untrue:true") "")
              (Demo.info_of 1 (Some "unlocal:local") "") eq_refl))).
Defined.

(** ** The version check *)

Section Gate.

Variable E : Env.

Lemma run_snapper_checked_world (a : list string) (c : option string) (d : bool)
    (w : World) :
  snapper_version_ok w = true ->
  snd (run_snapper E a c d w) = emit (ev d (args_new a c)) w.
Proof.
  intros H. destruct d.
  - now rewrite run_snapper_checked_dry.
  - now rewrite run_snapper_checked_exec.
Qed.

(** X1: the version check runs at most once in a process.  After a call of
    [run_snapper] that returns, the check is remembered, and any further
    call, dry or not, leaves its own command in the trace and nothing
    else. *)
Theorem version_check_runs_once
    (a a' : list string) (c c' : option string) (d d' : bool) (w w' : World)
    (r : option Json) :
  run_snapper E a c d w = (Return r, w') ->
  snapper_version_ok w' = true /\
  trace w' = trace w ++ gate_events w 1 ++ [ev d (args_new a c)] /\
  snd (run_snapper E a' c' d' w') = emit (ev d' (args_new a' c')) w'.
Proof.
  intros H. apply run_snapper_return in H as [Ht Hok].
  split; [exact Hok|]. split; [exact Ht|].
  now apply run_snapper_checked_world.
Qed.

(** X2: when the version check fails, the call ends with the exception of
    the check: the command asked for is neither run nor printed, and the
    check is not remembered, so that the next call checks again. *)
Theorem failed_version_check_blocks_command
    (a : list string) (c : option string) (d : bool) (w : World) (e : Exn) :
  snapper_version_ok w = false ->
  fst (check_snapper E w) = Raise e ->
  run_snapper E a c d w = (Raise e, emit (Exec version_cmd) w) /\
  snapper_version_ok (emit (Exec version_cmd) w) = false.
Proof.
  intros Hok He. split; [|exact Hok].
  unfold run_snapper, bind. rewrite Hok.
  pose proof (check_snapper_world E w) as Hw.
  destruct (check_snapper E w) as [[[]|e'] w1]; simpl in He, Hw; [discriminate|].
  injection He as ->. now subst w1.
Qed.

End Gate.

Lemma version_check_runs_once_witness :
  run_snapper Demo.tool ["get-config"] (Some "root") false Demo.fresh
    = (Return None,
       {| snapper_version_ok := true;
          trace := [Exec ["snapper"; "--version"];
                    Exec ["snapper"; "-c"; "root"; "--jsonout"; "get-config"]] |}) /\
  snd (run_snapper Demo.tool ["list"; "--disable-used-space"] (Some "root") false
         {| snapper_version_ok := true;
            trace := [Exec ["snapper"; "--version"];
                      Exec ["snapper"; "-c"; "root"; "--jsonout"; "get-config"]] |})
  = {| snapper_version_ok := true;
       trace := [Exec ["snapper"; "--version"];
                 Exec ["snapper"; "-c"; "root"; "--jsonout"; "get-config"];
                 Exec ["snapper"; "-c"; "root"; "--jsonout"; "list";
                       "--disable-used-space"]] |}.
Proof.
  assert (H : run_snapper Demo.tool ["get-config"] (Some "root") false Demo.fresh
              = (Return None,
                 {| snapper_version_ok := true;
                    trace := [Exec ["snapper"; "--version"];
                              Exec ["snapper"; "-c"; "root"; "--jsonout"; "get-config"]] |}))
    by (vm_compute; reflexivity).
  exact (conj H
    (proj2 (proj2 (version_check_runs_once Demo.tool _ ["list"; "--disable-used-space"]
                     _ (Some "root") _ false _ _ _ H)))).
Defined.

(** A tool of version 0.8.5 is too old: the dry run of a command ends with
    the exception of the check and prints nothing. *)
Lemma failed_version_check_blocks_command_witness :
  fst (check_snapper (Demo.tool_of_version "0.8.5") Demo.fresh)
    = Raise (Exception "Snapper version 0.8.5 is too old!") /\
  run_snapper (Demo.tool_of_version "0.8.5") ["get-config"] (Some "root") true Demo.fresh
    = (Raise (Exception "Snapper version 0.8.5 is too old!"),
       {| snapper_version_ok := false; trace := [Exec ["snapper"; "--version"]] |}).
Proof.
  assert (H : fst (check_snapper (Demo.tool_of_version "0.8.5") Demo.fresh)
              = Raise (Exception "Snapper version 0.8.5 is too old!"))
    by (vm_compute; reflexivity).
  exact (conj H
    (proj1 (failed_version_check_blocks_command (Demo.tool_of_version "0.8.5")
              ["get-config"] (Some "root") true Demo.fresh _ eq_refl H))).
Defined.

Lemma prefix_nil (r : string) : String.prefix "" r = true.
Proof. now destruct r. Qed.

(** A string without the separator is its only field. *)
Lemma split_no_sep (sep : ascii) (s : string) :
  PyStr.occurs (String sep EmptyString) s = false -> PyStr.split sep s = [s].
Proof.
  induction s as [|c r IH]; [reflexivity|].
  rewrite occurs_cons. intros H. apply orb_false_iff in H as [Hp Hr].
  simpl in Hp. destruct (Ascii.ascii_dec sep c) as [->|Hne].
  - now rewrite prefix_nil in Hp.
  - rewrite split_keep by congruence. now rewrite (IH Hr).
Qed.

(** X3: the version is the second of the fields, separated by single
    spaces, of the first line of the output that starts with [snapper].
    When there is no such line, or when that line holds no space, the check
    raises [IndexError]. *)
Theorem check_snapper_needs_version_field (E : Env) (w : World) (out : string) :
  check_output E (trace w) version_cmd = Some out ->
  (forall line,
     hd_error (List.filter (fun l => PyStr.startswith l "snapper") (splitlines E out))
       = Some line ->
     PyStr.occurs " " line = false) ->
  check_snapper E w = (Raise IndexError, emit (Exec version_cmd) w).
Proof.
  intros Hout Hline. unfold check_snapper, bind, subprocess_check_output.
  fold version_cmd. rewrite Hout.
  destruct (List.filter _ _) as [|line rest]; [reflexivity|].
  rewrite (split_no_sep " " line) by now apply Hline. reflexivity.
Qed.

(** A tool that prints [snapper] and no version. *)
Lemma check_snapper_needs_version_field_witness :
  check_snapper (Demo.tool_saying "snapper") Demo.fresh
  = (Raise IndexError,
     {| snapper_version_ok := false; trace := [Exec ["snapper"; "--version"]] |}).
Proof.
  apply (check_snapper_needs_version_field (Demo.tool_saying "snapper") Demo.fresh
           "snapper" eq_refl).
  intros line H. vm_compute in H. injection H as <-. reflexivity.
Defined.

(** ** The snapshot list, continued *)

Section CatalogMore.

Variable E : Env.

Lemma cache_ok_init (n : string) (st : option Json) (r : Repo) :
  cache_ok (SnapperConfig.init n st r).
Proof. intros l H. discriminate. Qed.

Lemma list_ok_loaded (a : ConfigAttrs) (infos : list Info) :
  list_ok a (List.map (SnapperSnapshot.init a)
               (List.filter (fun i => negb (number i =? 0)%Z) infos)).
Proof.
  apply List.Forall_forall. intros s Hin.
  apply in_map_iff in Hin as [i [<- Hi]]. apply filter_In in Hi as [_ Hi].
  apply negb_true_iff, Z.eqb_neq in Hi. now repeat split.
Qed.

(** X9: what [get_snapshots] returns is what the object then stores, and
    neither ever holds a snapshot with number 0, a snapshot of another
    configuration, or one whose remembered cleanup algorithm is not that of
    its record: the property holds for the object a call leaves whenever it
    held for the object the call was made on, and it holds for a new
    object. *)
Theorem get_snapshots_keeps_list_ok
    (self self' : SnapperConfig) (l : list SnapperSnapshot) (w w' : World) :
  cache_ok self ->
  SnapperConfig.get_snapshots E self w = (Return (self', l), w') ->
  _snapshots self' = Some l /\
  attrs self' = attrs self /\
  list_ok (attrs self') l /\
  cache_ok self' /\
  (forall n st r, cache_ok (SnapperConfig.init n st r)).
Proof.
  intros Hc H.
  assert (Hl : _snapshots self' = Some l /\ attrs self' = attrs self /\
               list_ok (attrs self') l).
  { destruct (_snapshots self) as [[|s l0]|] eqn:Hs.
    - destruct (get_snapshots_loaded E self self' l w w' (or_intror Hs) H)
        as (H1 & H2 & [infos ->] & _). rewrite H2. repeat split; try assumption.
      apply list_ok_loaded.
    - rewrite (get_snapshots_cached E self s l0 w Hs) in H. injection H as <- <- _.
      repeat split; try assumption. now apply Hc.
    - destruct (get_snapshots_loaded E self self' l w w' (or_introl Hs) H)
        as (H1 & H2 & [infos ->] & _). rewrite H2. repeat split; try assumption.
      apply list_ok_loaded. }
  destruct Hl as (H1 & H2 & H3). repeat split; try assumption.
  - intros l' Hl'. rewrite H1 in Hl'. now injection Hl' as <-.
  - exact cache_ok_init.
Qed.

(** X10: a list that was loaded and is not empty is loaded once.  A second
    call, on the object the first call left, returns the same list and the
    same object and leaves the world as it is. *)
Theorem get_snapshots_again
    (self self' : SnapperConfig) (l : list SnapperSnapshot) (w w' w'' : World) :
  SnapperConfig.get_snapshots E self w = (Return (self', l), w') ->
  l <> [] ->
  SnapperConfig.get_snapshots E self' w'' = (Return (self', l), w'').
Proof.
  intros H Hne.
  assert (Hs : _snapshots self' = Some l).
  { destruct (_snapshots self) as [[|s l0]|] eqn:Hs.
    - now destruct (get_snapshots_loaded E self self' l w w' (or_intror Hs) H).
    - rewrite (get_snapshots_cached E self s l0 w Hs) in H. now injection H as <- <- _.
    - now destruct (get_snapshots_loaded E self self' l w w' (or_introl Hs) H). }
  destruct l as [|s l0]; [congruence|].
  now apply get_snapshots_cached.
Qed.

(** X11: when nothing is stored yet and the [list] command returns the
    records per configuration, [get_snapshots] returns one snapshot per
    record of this configuration whose number is not 0, in the order of the
    records, each constructed from its record, and stores that list. *)
Theorem get_snapshots_of_reply
    (self : SnapperConfig) (m : gmap string (list Info)) (infos : list Info)
    (w w1 : World) :
  unloaded self ->
  run_snapper E ["list"; "--disable-used-space"] (Some (name (attrs self))) false w
    = (Return (Some (JList m)), w1) ->
  m !! name (attrs self) = Some infos ->
  exists l,
    SnapperConfig.get_snapshots E self w
      = (Return ({| attrs := attrs self; _snapshots := Some l |}, l), w1) /\
    List.map info l = List.filter (fun i => negb (number i =? 0)%Z) infos /\
    l = List.map (SnapperSnapshot.init (attrs self)) (List.map info l) /\
    List.map SnapperSnapshot.get_number l
      = List.filter (fun n => negb (n =? 0)%Z) (List.map number infos).
Proof.
  intros Hu Hr Hm.
  exists (List.map (SnapperSnapshot.init (attrs self))
            (List.filter (fun i => negb (number i =? 0)%Z) infos)).
  assert (Hinfo : forall l0 : list Info,
            List.map info (List.map (SnapperSnapshot.init (attrs self)) l0) = l0).
  { induction l0 as [|x l0 IH]; [reflexivity|]. cbn [List.map]. now rewrite IH. }
  repeat split.
  - unfold SnapperConfig.get_snapshots.
    assert (Hb : (r <- run_snapper E ["list"; "--disable-used-space"]
                         (Some (name (attrs self))) false ;;
                  infos0 <- SnapperConfig.subscript r (name (attrs self)) ;;
                  ret ({| attrs := attrs self;
                          _snapshots :=
                            Some (List.map (SnapperSnapshot.init (attrs self))
                                    (List.filter (fun i => negb (number i =? 0)%Z) infos0)) |},
                       List.map (SnapperSnapshot.init (attrs self))
                         (List.filter (fun i => negb (number i =? 0)%Z) infos0))) w
                 = (Return ({| attrs := attrs self;
                               _snapshots :=
                                 Some (List.map (SnapperSnapshot.init (attrs self))
                                         (List.filter (fun i => negb (number i =? 0)%Z)
                                            infos)) |},
                            List.map (SnapperSnapshot.init (attrs self))
                              (List.filter (fun i => negb (number i =? 0)%Z) infos)), w1)).
    { unfold bind at 1. rewrite Hr. unfold bind, ret, SnapperConfig.subscript.
      now rewrite Hm. }
    now destruct Hu as [-> | ->].
  - apply Hinfo.
  - now rewrite Hinfo.
  - unfold SnapperSnapshot.get_number. rewrite <- (List.map_map info number), Hinfo.
    clear. induction infos as [|x l IH]; [reflexivity|].
    cbn [List.map List.filter]. destruct (negb (number x =? 0)%Z);
      cbn [List.map]; now rewrite IH.
Qed.

(** X12: when nothing is stored yet and the call of [run_snapper] returns,
    [get_snapshots] raises [TypeError] if the tool printed nothing, and
    [KeyError] if the reply has no entry for the name of the
    configuration. *)
Theorem get_snapshots_without_records
    (self : SnapperConfig) (r : option Json) (w w1 : World) :
  unloaded self ->
  run_snapper E ["list"; "--disable-used-space"] (Some (name (attrs self))) false w
    = (Return r, w1) ->
  (r = None -> SnapperConfig.get_snapshots E self w = (Raise TypeError, w1)) /\
  (forall m, r = Some (JList m) -> m !! name (attrs self) = None ->
     SnapperConfig.get_snapshots E self w = (Raise (KeyError (name (attrs self))), w1)).
Proof.
  intros Hu Hr.
  assert (Hb : SnapperConfig.get_snapshots E self w =
               (infos0 <- SnapperConfig.subscript r (name (attrs self)) ;;
                ret ({| attrs := attrs self;
                        _snapshots :=
                          Some (List.map (SnapperSnapshot.init (attrs self))
                                  (List.filter (fun i => negb (number i =? 0)%Z) infos0)) |},
                     List.map (SnapperSnapshot.init (attrs self))
                       (List.filter (fun i => negb (number i =? 0)%Z) infos0))) w1).
  { unfold SnapperConfig.get_snapshots.
    destruct Hu as [-> | ->]; unfold bind at 1; now rewrite Hr. }
  rewrite Hb. split.
  - now intros ->.
  - intros m -> Hm. unfold bind, SnapperConfig.subscript, raise. now rewrite Hm.
Qed.

(** X13: a configuration is obtained with [get] and its snapshots are
    asked for.  When both calls return, the tool was asked for the settings
    and then for the list, after one version check if that was due; the
    object holds the name and repository given and the list returned, and
    the list holds no snapshot with number 0 and only snapshots of this
    configuration. *)
Theorem get_then_get_snapshots
    (config_name : string) (r : Repo) (c' : SnapperConfig) (l : list SnapperSnapshot)
    (w w' : World) :
  (c <- SnapperConfig.get E config_name r ;; SnapperConfig.get_snapshots E c) w
    = (Return (c', l), w') ->
  trace w' = trace w ++ gate_events w 1 ++
    [Exec (args_new ["get-config"] (Some config_name));
     Exec (args_new ["list"; "--disable-used-space"] (Some config_name))] /\
  name (attrs c') = config_name /\
  repo (attrs c') = r /\
  _snapshots c' = Some l /\
  list_ok (attrs c') l.
Proof.
  intros H. unfold bind at 1 in H.
  destruct (SnapperConfig.get E config_name r w) as [[c|e] w1] eqn:Hg; [|discriminate].
  unfold SnapperConfig.get, bind, ret in Hg.
  destruct (run_snapper E ["get-config"] (Some config_name) false w) as [[st|e] w0] eqn:Hr;
    [|discriminate].
  injection Hg as <- <-. apply run_snapper_return in Hr as [Ht0 Hok0].
  destruct (get_snapshots_loaded E (SnapperConfig.init config_name st r) c' l w0 w'
              (or_introl eq_refl) H)
    as (Hs & Ha & [infos ->] & _ & Ht).
  rewrite gate_events_checked in Ht by assumption. cbn [app] in Ht.
  repeat split.
  - rewrite Ht, Ht0, <- !app_assoc. reflexivity.
  - now rewrite Ha.
  - now rewrite Ha.
  - exact Hs.
  - rewrite Ha. apply list_ok_loaded.
Qed.

End CatalogMore.

Lemma get_snapshots_keeps_list_ok_witness :
  SnapperConfig.get_snapshots Demo.tool Demo.root Demo.checked
    = (Return (Demo.root_loaded, Demo.listed),
       {| snapper_version_ok := true;
          trace := [Exec ["snapper"; "-c"; "root"; "--jsonout"; "list";
                          "--disable-used-space"]] |}) /\
  list_ok (attrs Demo.root_loaded) Demo.listed.
Proof.
  assert (H : SnapperConfig.get_snapshots Demo.tool Demo.root Demo.checked
              = (Return (Demo.root_loaded, Demo.listed),
                 {| snapper_version_ok := true;
                    trace := [Exec ["snapper"; "-c"; "root"; "--jsonout"; "list";
                                    "--disable-used-space"]] |}))
    by (vm_compute; reflexivity).
  exact (conj H
    (proj1 (proj2 (proj2
       (get_snapshots_keeps_list_ok Demo.tool Demo.root _ _ Demo.checked _
          (cache_ok_init "root" None Demo.local_repo) H))))).
Defined.

(** The second call runs nothing, not even in a world in which the version
    check is still due. *)
Lemma get_snapshots_again_witness :
  SnapperConfig.get_snapshots Demo.tool Demo.root Demo.checked
    = (Return (Demo.root_loaded, Demo.listed),
       {| snapper_version_ok := true;
          trace := [Exec ["snapper"; "-c"; "root"; "--jsonout"; "list";
                          "--disable-used-space"]] |}) /\
  SnapperConfig.get_snapshots Demo.tool Demo.root_loaded Demo.fresh
    = (Return (Demo.root_loaded, Demo.listed), Demo.fresh).
Proof.
  assert (H : SnapperConfig.get_snapshots Demo.tool Demo.root Demo.checked
              = (Return (Demo.root_loaded, Demo.listed),
                 {| snapper_version_ok := true;
                    trace := [Exec ["snapper"; "-c"; "root"; "--jsonout"; "list";
                                    "--disable-used-space"]] |}))
    by (vm_compute; reflexivity).
  assert (Hne : Demo.listed <> []) by discriminate.
  exact (conj H
    (get_snapshots_again Demo.tool Demo.root _ _ Demo.checked _ Demo.fresh H Hne)).
Defined.

Lemma get_snapshots_of_reply_witness :
  exists l,
    SnapperConfig.get_snapshots Demo.tool Demo.root Demo.checked
      = (Return ({| attrs := attrs Demo.root; _snapshots := Some l |}, l),
         {| snapper_version_ok := true;
            trace := [Exec ["snapper"; "-c"; "root"; "--jsonout"; "list";
                            "--disable-used-space"]] |}) /\
    List.map SnapperSnapshot.get_number l = [1; 2; 3]%Z.
Proof.
  assert (Hu : unloaded Demo.root) by (left; reflexivity).
  assert (Hr : run_snapper Demo.tool ["list"; "--disable-used-space"]
                 (Some (name (attrs Demo.root))) false Demo.checked
               = (Return (Some (JList Demo.listing)),
                  {| snapper_version_ok := true;
                     trace := [Exec ["snapper"; "-c"; "root"; "--jsonout"; "list";
                                     "--disable-used-space"]] |}))
    by (vm_compute; reflexivity).
  destruct (get_snapshots_of_reply Demo.tool Demo.root Demo.listing _ Demo.checked _
              Hu Hr eq_refl) as (l & Hg & _ & _ & Hn).
  exists l. exact (conj Hg Hn).
Defined.

(** The tool prints nothing for the list of a configuration it does not
    know. *)
Lemma get_snapshots_without_records_witness :
  SnapperConfig.get_snapshots Demo.tool (SnapperConfig.init "home" None Demo.local_repo)
    Demo.checked
  = (Raise TypeError,
     {| snapper_version_ok := true;
        trace := [Exec ["snapper"; "-c"; "home"; "--jsonout"; "list";
                        "--disable-used-space"]] |}).
Proof.
  assert (Hu : unloaded (SnapperConfig.init "home" None Demo.local_repo))
    by (left; reflexivity).
  assert (Hr : run_snapper Demo.tool ["list"; "--disable-used-space"]
                 (Some (name (attrs (SnapperConfig.init "home" None Demo.local_repo))))
                 false Demo.checked
               = (Return None,
                  {| snapper_version_ok := true;
                     trace := [Exec ["snapper"; "-c"; "home"; "--jsonout"; "list";
                                     "--disable-used-space"]] |}))
    by (vm_compute; reflexivity).
  exact (proj1 (get_snapshots_without_records Demo.tool _ _ Demo.checked _ Hu Hr) eq_refl).
Defined.

Lemma get_then_get_snapshots_witness :
  (c <- SnapperConfig.get Demo.tool "root" Demo.local_repo ;;
   SnapperConfig.get_snapshots Demo.tool c) Demo.fresh
    = (Return (Demo.root_loaded, Demo.listed),
       {| snapper_version_ok := true;
          trace := [Exec ["snapper"; "--version"];
                    Exec ["snapper"; "-c"; "root"; "--jsonout"; "get-config"];
                    Exec ["snapper"; "-c"; "root"; "--jsonout"; "list";
                          "--disable-used-space"]] |}) /\
  list_ok (attrs Demo.root_loaded) Demo.listed.
Proof.
  assert (H : (c <- SnapperConfig.get Demo.tool "root" Demo.local_repo ;;
               SnapperConfig.get_snapshots Demo.tool c) Demo.fresh
              = (Return (Demo.root_loaded, Demo.listed),
                 {| snapper_version_ok := true;
                    trace := [Exec ["snapper"; "--version"];
                              Exec ["snapper"; "-c"; "root"; "--jsonout"; "get-config"];
                              Exec ["snapper"; "-c"; "root"; "--jsonout"; "list";
                                    "--disable-used-space"]] |}))
    by (vm_compute; reflexivity).
  exact (conj H
    (proj2 (proj2 (proj2 (proj2
       (get_then_get_snapshots Demo.tool "root" Demo.local_repo _ _ Demo.fresh _ H)))))).
Defined.

(** ** The cleanup guard, continued *)

Section GuardMore.

Variable E : Env.

(** X4: when the block under the guard returns, the restore loop runs over
    the guarded list.  When that loop returns (no restore command fails),
    the guard returns what the block returned, with the configuration
    object, after every guarded snapshot got its restore command in the
    order of the guarded list; on a real run each snapshot then holds the
    cleanup algorithm of its record.  When that loop raises, the guard
    raises its exception and the result of the block is lost. *)
Theorem guard_restores_on_return
    (A : Type) (self self' : SnapperConfig)
    (snapshots : option (list SnapperSnapshot)) (snaps : list SnapperSnapshot)
    (dryrun : bool) (body : SnapperConfig -> M A) (w w0 w1 w2 w3 : World) (a : A)
    (r3 : Result unit) :
  SnapperConfig.guarded E self snapshots w = (Return (self', snaps), w0) ->
  for_each snaps (fun s => SnapperSnapshot.prevent_cleanup E s dryrun) w0 = (Return tt, w1) ->
  body self' w1 = (Return a, w2) ->
  for_each snaps (fun s => SnapperSnapshot.restore_cleanup_state E s dryrun) w2
    = (r3, w3) ->
  match r3 with
  | Return _ =>
      SnapperConfig.prevent_cleanup E self snapshots dryrun body w
        = (Return (self', a), w3) /\
      trace w3 = trace w2 ++ gate_events w2 (List.length snaps)
                   ++ List.map (fun s => ev dryrun (restore_cmd s)) snaps /\
      (dryrun = false ->
       List.NoDup (List.map Store.target snaps) ->
       forall s init, In s snaps -> _cleanup s = cleanup (info s) ->
         Store.persisted_cleanup (trace w3) (Store.target s) init = cleanup (info s))
  | Raise e' =>
      SnapperConfig.prevent_cleanup E self snapshots dryrun body w = (Raise e', w3)
  end.
Proof.
  intros Hsel Hentry Hbody Hexit.
  assert (Hguard : SnapperConfig.prevent_cleanup E self snapshots dryrun body w =
                   (match r3 with
                    | Return _ => Return (self', a)
                    | Raise e' => Raise e'
                    end, w3)).
  { unfold SnapperConfig.prevent_cleanup, bind, ret, try_finally.
    rewrite Hsel. cbn [fst snd]. rewrite Hentry, Hbody, Hexit. now destruct r3. }
  destruct r3 as [[]|e']; [|exact Hguard].
  assert (Ht3 : trace w3 = trace w2 ++ gate_events w2 (List.length snaps)
                  ++ List.map (fun s => ev dryrun (restore_cmd s)) snaps)
    by apply (loop_return E dryrun _ _ snaps w2 w3 Hexit).
  split; [exact Hguard|]. split; [exact Ht3|].
  intros -> Hd s init Hin Hs. rewrite Ht3, !persisted_cleanup_app.
  rewrite persisted_cleanup_gate, <- Hs.
  apply (persisted_cleanup_each _cleanup); assumption.
Qed.

(** X6: over the empty list the guard runs the block and nothing else: no
    command, no version check, and the list of the configuration is not
    loaded. *)
Theorem guard_over_nothing
    (A : Type) (self : SnapperConfig) (dryrun : bool) (body : SnapperConfig -> M A)
    (w : World) :
  SnapperConfig.prevent_cleanup E self (Some []) dryrun body w =
  (match fst (body self w) with
   | Return a => Return (self, a)
   | Raise e => Raise e
   end, snd (body self w)).
Proof.
  unfold SnapperConfig.prevent_cleanup, SnapperConfig.guarded, bind, ret, try_finally.
  cbn. now destruct (body self w) as [[a|e] w1].
Qed.

(** One write of the same value per snapshot: every snapshot written to
    holds the value. *)
Lemma persisted_cleanup_const (v : string) (snaps : list SnapperSnapshot)
    (t : string * string) (init : string) :
  Store.persisted_cleanup
    (List.map (fun s => Exec (modify_cmd s "--cleanup-algorithm" v)) snaps) t init = v \/
  (Store.persisted_cleanup
     (List.map (fun s => Exec (modify_cmd s "--cleanup-algorithm" v)) snaps) t init = init /\
   ~ In t (List.map Store.target snaps)).
Proof.
  revert init. induction snaps as [|x l IH]; intros init; [right; now split|].
  cbn [List.map]. unfold Store.persisted_cleanup in *. cbn [fold_left].
  rewrite cleanup_step_write. case_bool_decide as Hx.
  - destruct (IH v) as [H|[H _]]; left; exact H.
  - destruct (IH init) as [H|[H Hn]]; [now left|right].
    split; [exact H|]. intros [Hin|Hin]; [congruence|contradiction].
Qed.

(** X7: when the entry loop of a real run has returned, every guarded
    snapshot holds the empty cleanup algorithm, whatever it held before:
    this is the state in which the block runs. *)
Theorem entry_switches_cleanup_off
    (snaps : list SnapperSnapshot) (w0 w1 : World) (s : SnapperSnapshot) (init : string) :
  for_each snaps (fun s => SnapperSnapshot.prevent_cleanup E s false) w0 = (Return tt, w1) ->
  In s snaps ->
  Store.persisted_cleanup (trace w1) (Store.target s) init = "".
Proof.
  intros Hentry Hin.
  destruct (loop_return E false _ _ snaps w0 w1 Hentry) as (Ht & _).
  rewrite Ht, !persisted_cleanup_app, persisted_cleanup_gate.
  destruct (persisted_cleanup_const "" snaps (Store.target s)
              (Store.persisted_cleanup (trace w0) (Store.target s) init)) as [H|[_ Hn]].
  - exact H.
  - exfalso. apply Hn. now apply in_map.
Qed.

(** A dry loop in a process whose version check has passed prints its
    commands and returns. *)
Lemma loop_dry (args : SnapperSnapshot -> list string) (cfg : SnapperSnapshot -> option string)
    (snaps : list SnapperSnapshot) (w : World) :
  snapper_version_ok w = true ->
  for_each snaps (fun s => run_snapper E (args s) (cfg s) true ;;; ret tt) w
  = (Return tt,
     {| snapper_version_ok := true;
        trace := trace w ++ List.map (fun s => Print (args_new (args s) (cfg s))) snaps |}).
Proof.
  revert w. induction snaps as [|x l IH]; intros w Hok.
  - cbn. rewrite app_nil_r. destruct w as [ok tr]. simpl in Hok. now subst.
  - cbn [for_each]. unfold bind at 1. unfold bind at 1.
    rewrite run_snapper_checked_dry by assumption. unfold ret at 1.
    rewrite IH by exact Hok. cbn [List.map trace emit]. now rewrite <- app_assoc.
Qed.

Lemma persisted_cleanup_prints (cmds : list (list string)) (t : string * string)
    (init : string) :
  Store.persisted_cleanup (List.map Print cmds) t init = init.
Proof. induction cmds as [|x l IH]; [reflexivity|exact IH]. Qed.

(** X8: a dry run of the guard in a process whose version check has passed
    runs no command.  Both loops print their commands and cannot fail, the
    guard ends as the block ends, and what the snapshot manager holds for a
    snapshot after the restore loop is what it held when the block ended. *)
Theorem dry_guard_runs_nothing
    (A : Type) (self : SnapperConfig) (snaps : list SnapperSnapshot)
    (body : SnapperConfig -> M A) (w0 w2 : World) (r : Result A) :
  snapper_version_ok w0 = true ->
  body self {| snapper_version_ok := true;
               trace := trace w0 ++ List.map (fun s => Print (disable_cmd s)) snaps |}
    = (r, w2) ->
  snapper_version_ok w2 = true ->
  SnapperConfig.prevent_cleanup E self (Some snaps) true body w0 =
    (match r with
     | Return a => Return (self, a)
     | Raise e => Raise e
     end,
     {| snapper_version_ok := true;
        trace := trace w2 ++ List.map (fun s => Print (restore_cmd s)) snaps |}) /\
  (forall t init,
     Store.persisted_cleanup
       (trace w2 ++ List.map (fun s => Print (restore_cmd s)) snaps) t init
     = Store.persisted_cleanup (trace w2) t init).
Proof.
  intros Hok Hbody Hok2. split.
  - unfold SnapperConfig.prevent_cleanup, SnapperConfig.guarded, bind, ret, try_finally.
    cbn [fst snd].
    pose proof (loop_dry
      (fun s => ["modify"; "--cleanup-algorithm"; "";
                 PyStr.of_int (SnapperSnapshot.get_number s)])
      (fun s => Some (name (config s))) snaps w0 Hok) as Hentry.
    pose proof (loop_dry
      (fun s => ["modify"; "--cleanup-algorithm"; _cleanup s;
                 PyStr.of_int (SnapperSnapshot.get_number s)])
      (fun s => Some (name (config s))) snaps w2 Hok2) as Hexit.
    unfold SnapperSnapshot.prevent_cleanup, SnapperSnapshot.restore_cleanup_state.
    rewrite Hentry. fold disable_cmd. unfold disable_cmd, modify_cmd in Hbody.
    rewrite Hbody, Hexit. now destruct r.
  - intros t init. rewrite persisted_cleanup_app.
    rewrite <- (List.map_map restore_cmd Print). apply persisted_cleanup_prints.
Qed.

End GuardMore.

Lemma guard_restores_on_return_witness :
  SnapperConfig.prevent_cleanup Demo.tool Demo.root (Some [Demo.A; Demo.B; Demo.C]) false
    Demo.returning_body Demo.fresh
    = (Return (Demo.root, 7), Demo.after_exit) /\
  Store.persisted_cleanup (trace Demo.after_exit) ("root", "1") "" = "number-cleanup".
Proof.
  assert (H0 : SnapperConfig.guarded Demo.tool Demo.root (Some [Demo.A; Demo.B; Demo.C])
                 Demo.fresh
               = (Return (Demo.root, [Demo.A; Demo.B; Demo.C]), Demo.fresh))
    by reflexivity.
  assert (H1 : for_each [Demo.A; Demo.B; Demo.C]
                 (fun s => SnapperSnapshot.prevent_cleanup Demo.tool s false) Demo.fresh
               = (Return tt, Demo.after_entry)) by (vm_compute; reflexivity).
  assert (H2 : Demo.returning_body Demo.root Demo.after_entry = (Return 7, Demo.after_body))
    by (vm_compute; reflexivity).
  assert (H3 : for_each [Demo.A; Demo.B; Demo.C]
                 (fun s => SnapperSnapshot.restore_cleanup_state Demo.tool s false)
                 Demo.after_body
               = (Return tt, Demo.after_exit)) by (vm_compute; reflexivity).
  assert (Hd : List.NoDup (List.map Store.target [Demo.A; Demo.B; Demo.C]))
    by (repeat constructor; vm_compute; intuition discriminate).
  destruct (guard_restores_on_return Demo.tool nat Demo.root Demo.root
              (Some [Demo.A; Demo.B; Demo.C]) [Demo.A; Demo.B; Demo.C] false
              Demo.returning_body Demo.fresh Demo.fresh Demo.after_entry Demo.after_body
              Demo.after_exit 7 (Return tt) H0 H1 H2 H3) as (Hr & _ & Hp).
  exact (conj Hr (Hp eq_refl Hd Demo.A "" (or_introl eq_refl) eq_refl)).
Defined.

Lemma entry_switches_cleanup_off_witness :
  for_each [Demo.A; Demo.B; Demo.C]
    (fun s => SnapperSnapshot.prevent_cleanup Demo.tool s false) Demo.fresh
    = (Return tt, Demo.after_entry) /\
  Store.persisted_cleanup (trace Demo.after_entry) ("root", "2") "timeline" = "".
Proof.
  assert (H1 : for_each [Demo.A; Demo.B; Demo.C]
                 (fun s => SnapperSnapshot.prevent_cleanup Demo.tool s false) Demo.fresh
               = (Return tt, Demo.after_entry)) by (vm_compute; reflexivity).
  exact (conj H1
    (entry_switches_cleanup_off Demo.tool [Demo.A; Demo.B; Demo.C] Demo.fresh
       Demo.after_entry Demo.B "timeline" H1 (or_intror (or_introl eq_refl)))).
Defined.

(** A dry run of a guarded block that marks [A] and then fails: five
    commands are printed and none is run. *)
Lemma dry_guard_runs_nothing_witness :
  SnapperConfig.prevent_cleanup Demo.tool Demo.root (Some [Demo.A; Demo.B]) true
    (fun _ => SnapperSnapshot.set_backed_up Demo.tool Demo.A true ;;;
              raise (A := unit) (Exception "borg create failed")) Demo.checked
  = (Raise (Exception "borg create failed"),
     {| snapper_version_ok := true;
        trace := [Print (disable_cmd Demo.A); Print (disable_cmd Demo.B);
                  Print (backed_up_cmd Demo.A)]
                 ++ [Print (restore_cmd Demo.A); Print (restore_cmd Demo.B)] |}).
Proof.
  assert (Hb : (fun _ : SnapperConfig =>
                  SnapperSnapshot.set_backed_up Demo.tool Demo.A true ;;;
                  raise (A := unit) (Exception "borg create failed")) Demo.root
                 {| snapper_version_ok := true;
                    trace := trace Demo.checked
                             ++ List.map (fun s => Print (disable_cmd s)) [Demo.A; Demo.B] |}
               = (Raise (Exception "borg create failed"),
                  {| snapper_version_ok := true;
                     trace := [Print (disable_cmd Demo.A); Print (disable_cmd Demo.B);
                               Print (backed_up_cmd Demo.A)] |}))
    by (vm_compute; reflexivity).
  exact (proj1 (dry_guard_runs_nothing Demo.tool unit Demo.root [Demo.A; Demo.B] _
                  Demo.checked _ _ eq_refl Hb eq_refl)).
Defined.

(** ** Loops that fail *)

Section LoopsAt.

Variable E : Env.
Variable dryrun : bool.
Variable args : SnapperSnapshot -> list string.
Variable cfg : SnapperSnapshot -> option string.

(** A loop that raises has a call that raised: the calls before it returned
    and left one event each, and the call that raised either failed in the
    version check, which can only be the first call, or ran its command.
    No call follows it. *)
Lemma loop_raise_at (snaps : list SnapperSnapshot) (w w' : World) (e : Exn) :
  for_each snaps (fun s => run_snapper E (args s) (cfg s) dryrun ;;; ret tt) w
    = (Raise e, w') ->
  exists j s wj,
    snaps !! j = Some s /\
    for_each (take j snaps) (fun s => run_snapper E (args s) (cfg s) dryrun ;;; ret tt) w
      = (Return tt, wj) /\
    (run_snapper E (args s) (cfg s) dryrun ;;; ret tt) wj = (Raise e, w') /\
    ((j = 0 /\ snapper_version_ok w = false /\ w' = emit (Exec version_cmd) w) \/
     (dryrun = false /\
      trace w' = trace w ++ gate_events w (S j)
                   ++ List.map (fun s => Exec (args_new (args s) (cfg s))) (take j snaps)
                   ++ [Exec (args_new (args s) (cfg s))])).
Proof.
  revert w. induction snaps as [|x l IH]; intros w H; [discriminate|].
  cbn [for_each] in H. unfold bind at 1 in H.
  destruct ((run_snapper E (args x) (cfg x) dryrun ;;; ret tt) w) as [[[]|e'] w1] eqn:Hx.
  - pose proof Hx as Hx'. apply call_return in Hx' as (_ & Ht & Hok).
    destruct (IH _ H) as (j & s & wj & Hj & Hpre & Hcall & Hcase).
    exists (S j), s, wj. repeat split.
    + exact Hj.
    + cbn [take for_each]. unfold bind at 1. now rewrite Hx.
    + exact Hcall.
    + right. destruct Hcase as [(_ & Hbad & _)|(Hd & Ht')]; [congruence|].
      split; [exact Hd|]. subst dryrun.
      rewrite Ht', Ht, (gate_events_checked w1) by assumption.
      cbn [take List.map ev]. rewrite (gate_events_succ w (S j)), <- !app_assoc.
      reflexivity.
  - injection H as <- <-. exists 0, x, w. repeat split.
    + exact Hx.
    + apply call_raise in Hx as [[Hok ->]|(Hd & Ht & _)].
      * left. now repeat split.
      * right. split; [exact Hd|]. rewrite Ht. reflexivity.
Qed.

End LoopsAt.

(** After commands that all set the empty algorithm, the snapshots addressed
    hold it. *)
Lemma persisted_cleanup_off (tr : list Event) (snaps : list SnapperSnapshot)
    (last : SnapperSnapshot) (s : SnapperSnapshot) (init : string) :
  In s snaps ->
  Store.persisted_cleanup
    (tr ++ List.map (fun x => Exec (disable_cmd x)) snaps ++ [Exec (disable_cmd last)])
    (Store.target s) init = "".
Proof.
  intros Hin. unfold disable_cmd. rewrite app_assoc, persisted_cleanup_app.
  unfold Store.persisted_cleanup at 1. cbn [fold_left].
  rewrite cleanup_step_write. case_bool_decide; [reflexivity|].
  rewrite persisted_cleanup_app.
  destruct (persisted_cleanup_const "" snaps (Store.target s)
              (Store.persisted_cleanup tr (Store.target s) init)) as [H0|[_ Hn]].
  - exact H0.
  - exfalso. apply Hn. now apply in_map.
Qed.

(** ** The guard when a command fails *)

(** C1, amended: when the entry phase fails, the guard ends as the entry
    loop ended, with the same exception and in the same world, whatever the
    block is: the block does not run and no restore command is issued.  The
    loop failed at one snapshot of the guarded list.  For the snapshots
    before it the calls returned, and on a real run these snapshots hold the
    empty cleanup algorithm when the error leaves the guard.  The call for
    the failing snapshot either failed in the version check, which only the
    first call of a process that has not checked yet can do, and then
    nothing but [snapper --version] was run; or it is a real run and the
    trace has grown by the version check, if it was still due, the commands
    for the snapshots before the failing one, and the command that failed.
    Nothing was run for the snapshots after it. *)
Theorem guard_entry_failure_propagates
    (E : Env) (A : Type) (self self' : SnapperConfig)
    (snapshots : option (list SnapperSnapshot)) (snaps : list SnapperSnapshot)
    (dryrun : bool) (body : SnapperConfig -> M A) (w w0 w1 : World) (e : Exn) :
  SnapperConfig.guarded E self snapshots w = (Return (self', snaps), w0) ->
  for_each snaps (fun s => SnapperSnapshot.prevent_cleanup E s dryrun) w0 = (Raise e, w1) ->
  SnapperConfig.prevent_cleanup E self snapshots dryrun body w = (Raise e, w1) /\
  exists j s wj,
    snaps !! j = Some s /\
    for_each (take j snaps) (fun s => SnapperSnapshot.prevent_cleanup E s dryrun) w0
      = (Return tt, wj) /\
    SnapperSnapshot.prevent_cleanup E s dryrun wj = (Raise e, w1) /\
    ((j = 0 /\ snapper_version_ok w0 = false /\ w1 = emit (Exec version_cmd) w0) \/
     (dryrun = false /\
      trace w1 = trace w0 ++ gate_events w0 (S j)
                   ++ List.map (fun s => Exec (disable_cmd s)) (take j snaps)
                   ++ [Exec (disable_cmd s)])) /\
    (dryrun = false ->
     forall s' init, In s' (take j snaps) ->
       Store.persisted_cleanup (trace w1) (Store.target s') init = "").
Proof.
  intros Hsel Hentry. split.
  - unfold SnapperConfig.prevent_cleanup, bind, ret.
    rewrite Hsel. cbn [fst snd]. now rewrite Hentry.
  - destruct (loop_raise_at E dryrun _ _ snaps w0 w1 e Hentry)
      as (j & s & wj & Hj & Hpre & Hcall & Hcase).
    exists j, s, wj. split; [exact Hj|]. split; [exact Hpre|]. split; [exact Hcall|].
    split; [exact Hcase|].
    intros Hd s' init Hin. destruct Hcase as [(-> & _)|(_ & Ht)]; [contradiction|].
    rewrite Ht, app_assoc. now apply persisted_cleanup_off.
Qed.

(** The tool fails on the second of three snapshots: the guard raises the
    error of the tool after the two commands of the entry phase, and the
    first snapshot holds the empty cleanup algorithm. *)
Lemma guard_entry_failure_propagates_witness :
  SnapperConfig.guarded Demo.tool_failing_on_B Demo.root
    (Some [Demo.A; Demo.B; Demo.C]) Demo.checked
  = (Return (Demo.root, [Demo.A; Demo.B; Demo.C]), Demo.checked) /\
  for_each [Demo.A; Demo.B; Demo.C]
    (fun s => SnapperSnapshot.prevent_cleanup Demo.tool_failing_on_B s false) Demo.checked
  = (Raise (CalledProcessError (disable_cmd Demo.B)),
     {| snapper_version_ok := true;
        trace := [Exec (disable_cmd Demo.A); Exec (disable_cmd Demo.B)] |}) /\
  SnapperConfig.prevent_cleanup Demo.tool_failing_on_B Demo.root
    (Some [Demo.A; Demo.B; Demo.C]) false Demo.failing_body Demo.checked
  = (Raise (CalledProcessError (disable_cmd Demo.B)),
     {| snapper_version_ok := true;
        trace := [Exec (disable_cmd Demo.A); Exec (disable_cmd Demo.B)] |}) /\
  Store.persisted_cleanup [Exec (disable_cmd Demo.A); Exec (disable_cmd Demo.B)]
    (Store.target Demo.A) "number-cleanup" = "".
Proof.
  assert (H0 : SnapperConfig.guarded Demo.tool_failing_on_B Demo.root
                 (Some [Demo.A; Demo.B; Demo.C]) Demo.checked
               = (Return (Demo.root, [Demo.A; Demo.B; Demo.C]), Demo.checked))
    by reflexivity.
  assert (H : for_each [Demo.A; Demo.B; Demo.C]
                (fun s => SnapperSnapshot.prevent_cleanup Demo.tool_failing_on_B s false)
                Demo.checked
              = (Raise (CalledProcessError (disable_cmd Demo.B)),
                 {| snapper_version_ok := true;
                    trace := [Exec (disable_cmd Demo.A); Exec (disable_cmd Demo.B)] |}))
    by (vm_compute; reflexivity).
  destruct (guard_entry_failure_propagates Demo.tool_failing_on_B unit Demo.root Demo.root
              (Some [Demo.A; Demo.B; Demo.C]) [Demo.A; Demo.B; Demo.C] false
              Demo.failing_body Demo.checked Demo.checked _ _ H0 H)
    as (Hr & j & s & wj & Hj & Hpre & Hcall & _ & Hsup).
  refine (conj H0 (conj H (conj Hr (Hsup eq_refl Demo.A "number-cleanup" _)))).
  destruct j as [|[|[|j]]].
  - injection Hj as <-. injection Hpre as <-. vm_compute in Hcall. discriminate Hcall.
  - left. reflexivity.
  - vm_compute in Hpre. discriminate Hpre.
  - discriminate Hj.
Defined.

(** C2, as it is stated, fails: the block raises, the tool fails when the
    cleanup algorithm of [B] is restored, and what leaves the guard is the
    error of the tool, not the exception of the block; after the block only
    the restore commands of [A] and [B] were run, and none for [C]. *)
Lemma body_exception_lost_when_restore_fails :
  Demo.failing_body Demo.root Demo.entered
    = (Raise (Exception "borg create failed"), Demo.worked) /\
  SnapperConfig.prevent_cleanup Demo.tool_failing_on_restore_B Demo.root
    (Some [Demo.A; Demo.B; Demo.C]) false Demo.failing_body Demo.checked
    = (Raise (CalledProcessError (restore_cmd Demo.B)), Demo.left_half_restored) /\
  trace Demo.left_half_restored
    = trace Demo.worked ++ [Exec (restore_cmd Demo.A); Exec (restore_cmd Demo.B)] /\
  trace Demo.worked
    = [Exec (disable_cmd Demo.A); Exec (disable_cmd Demo.B); Exec (disable_cmd Demo.C);
       Exec (backed_up_cmd Demo.A)].
Proof. repeat split; vm_compute; reflexivity. Qed.

(** C2, amended: the block under the guard raises, after an entry phase
    that issued the commands switching cleanup off in the order of the
    guarded list.  Then the restore loop runs over the same list in the same
    order.  When it returns, every guarded snapshot got its restore
    command, the exception of the block is what the guard raises, in the
    world the restore loop leaves, and on a real run the cleanup algorithm
    each snapshot then holds is the one of the record it was constructed
    from.  When it raises, the guard raises the exception of the restore
    loop in place of that of the block: the calls for the snapshots before
    the failing one returned, and nothing was run for the snapshots after
    it. *)
Theorem guard_restores_on_body_exception
    (E : Env) (A : Type) (self self' : SnapperConfig)
    (snapshots : option (list SnapperSnapshot)) (snaps : list SnapperSnapshot)
    (dryrun : bool) (body : SnapperConfig -> M A) (w w0 w1 w2 w3 : World) (e : Exn)
    (r3 : Result unit) :
  SnapperConfig.guarded E self snapshots w = (Return (self', snaps), w0) ->
  for_each snaps (fun s => SnapperSnapshot.prevent_cleanup E s dryrun) w0 = (Return tt, w1) ->
  body self' w1 = (Raise e, w2) ->
  for_each snaps (fun s => SnapperSnapshot.restore_cleanup_state E s dryrun) w2 = (r3, w3) ->
  trace w1 = trace w0 ++ gate_events w0 (List.length snaps)
               ++ List.map (fun s => ev dryrun (disable_cmd s)) snaps /\
  match r3 with
  | Return _ =>
      SnapperConfig.prevent_cleanup E self snapshots dryrun body w = (Raise e, w3) /\
      trace w3 = trace w2 ++ gate_events w2 (List.length snaps)
                   ++ List.map (fun s => ev dryrun (restore_cmd s)) snaps /\
      (dryrun = false ->
       List.NoDup (List.map Store.target snaps) ->
       forall s init, In s snaps -> _cleanup s = cleanup (info s) ->
         Store.persisted_cleanup (trace w3) (Store.target s) init = cleanup (info s))
  | Raise e' =>
      SnapperConfig.prevent_cleanup E self snapshots dryrun body w = (Raise e', w3) /\
      exists j s wj,
        snaps !! j = Some s /\
        for_each (take j snaps)
          (fun s => SnapperSnapshot.restore_cleanup_state E s dryrun) w2 = (Return tt, wj) /\
        SnapperSnapshot.restore_cleanup_state E s dryrun wj = (Raise e', w3) /\
        ((j = 0 /\ snapper_version_ok w2 = false /\ w3 = emit (Exec version_cmd) w2) \/
         (dryrun = false /\
          trace w3 = trace w2 ++ gate_events w2 (S j)
                       ++ List.map (fun s => Exec (restore_cmd s)) (take j snaps)
                       ++ [Exec (restore_cmd s)]))
  end.
Proof.
  intros Hsel Hentry Hbody Hexit.
  split; [apply (loop_return E dryrun _ _ snaps w0 w1 Hentry)|].
  assert (Hguard : SnapperConfig.prevent_cleanup E self snapshots dryrun body w =
                   (match r3 with Return _ => Raise e | Raise e' => Raise e' end, w3)).
  { unfold SnapperConfig.prevent_cleanup, bind, ret, try_finally.
    rewrite Hsel. cbn [fst snd]. rewrite Hentry, Hbody, Hexit. now destruct r3. }
  destruct r3 as [[]|e'].
  - assert (Ht3 : trace w3 = trace w2 ++ gate_events w2 (List.length snaps)
                    ++ List.map (fun s => ev dryrun (restore_cmd s)) snaps)
      by apply (loop_return E dryrun _ _ snaps w2 w3 Hexit).
    split; [exact Hguard|]. split; [exact Ht3|].
    intros -> Hd s init Hin Hs. rewrite Ht3, !persisted_cleanup_app.
    rewrite persisted_cleanup_gate, <- Hs.
    apply (persisted_cleanup_each _cleanup); assumption.
  - split; [exact Hguard|].
    exact (loop_raise_at E dryrun _ _ snaps w2 w3 e' Hexit).
Qed.

(** The guarded block of [Demo] in a process that has not run [snapper]
    yet, with a tool that works: the version check and three commands on
    entry, the command of the block, three restore commands in the same
    order, and the exception of the block outside. *)
Lemma guard_restores_on_body_exception_witness :
  SnapperConfig.guarded Demo.tool Demo.root (Some [Demo.A; Demo.B; Demo.C]) Demo.fresh
    = (Return (Demo.root, [Demo.A; Demo.B; Demo.C]), Demo.fresh) /\
  for_each [Demo.A; Demo.B; Demo.C]
    (fun s => SnapperSnapshot.prevent_cleanup Demo.tool s false) Demo.fresh
    = (Return tt, Demo.after_entry) /\
  Demo.failing_body Demo.root Demo.after_entry
    = (Raise (Exception "borg create failed"), Demo.after_body) /\
  for_each [Demo.A; Demo.B; Demo.C]
    (fun s => SnapperSnapshot.restore_cleanup_state Demo.tool s false) Demo.after_body
    = (Return tt, Demo.after_exit) /\
  SnapperConfig.prevent_cleanup Demo.tool Demo.root (Some [Demo.A; Demo.B; Demo.C]) false
    Demo.failing_body Demo.fresh
    = (Raise (Exception "borg create failed"), Demo.after_exit) /\
  trace Demo.after_exit =
    [Exec ["snapper"; "--version"];
     Exec ["snapper"; "-c"; "root"; "--jsonout"; "modify"; "--cleanup-algorithm"; ""; "1"];
     Exec ["snapper"; "-c"; "root"; "--jsonout"; "modify"; "--cleanup-algorithm"; ""; "2"];
     Exec ["snapper"; "-c"; "root"; "--jsonout"; "modify"; "--cleanup-algorithm"; ""; "3"];
     Exec ["snapper"; "-c"; "root"; "--jsonout"; "modify"; "--userdata";
           "snapborg_backup=local"; "1"]] ++
    [Exec ["snapper"; "-c"; "root"; "--jsonout"; "modify"; "--cleanup-algorithm";
           "number-cleanup"; "1"];
     Exec ["snapper"; "-c"; "root"; "--jsonout"; "modify"; "--cleanup-algorithm";
           "timeline"; "2"];
     Exec ["snapper"; "-c"; "root"; "--jsonout"; "modify"; "--cleanup-algorithm";
           ""; "3"]] /\
  Store.persisted_cleanup (trace Demo.after_exit) ("root", "2") "timeline" = "timeline".
Proof.
  assert (H0 : SnapperConfig.guarded Demo.tool Demo.root (Some [Demo.A; Demo.B; Demo.C])
                 Demo.fresh
               = (Return (Demo.root, [Demo.A; Demo.B; Demo.C]), Demo.fresh))
    by reflexivity.
  assert (H1 : for_each [Demo.A; Demo.B; Demo.C]
                 (fun s => SnapperSnapshot.prevent_cleanup Demo.tool s false) Demo.fresh
               = (Return tt, Demo.after_entry)) by (vm_compute; reflexivity).
  assert (H2 : Demo.failing_body Demo.root Demo.after_entry
               = (Raise (Exception "borg create failed"), Demo.after_body))
    by (vm_compute; reflexivity).
  assert (H3 : for_each [Demo.A; Demo.B; Demo.C]
                 (fun s => SnapperSnapshot.restore_cleanup_state Demo.tool s false)
                 Demo.after_body
               = (Return tt, Demo.after_exit)) by (vm_compute; reflexivity).
  assert (Hd : List.NoDup (List.map Store.target [Demo.A; Demo.B; Demo.C]))
    by (repeat constructor; vm_compute; intuition discriminate).
  destruct (guard_restores_on_body_exception Demo.tool unit Demo.root Demo.root
              (Some [Demo.A; Demo.B; Demo.C]) [Demo.A; Demo.B; Demo.C] false
              Demo.failing_body Demo.fresh Demo.fresh Demo.after_entry Demo.after_body
              Demo.after_exit (Exception "borg create failed") (Return tt) H0 H1 H2 H3)
    as (_ & Hr & Ht & Hp).
  exact (conj H0 (conj H1 (conj H2 (conj H3 (conj Hr (conj Ht
           (Hp eq_refl Hd Demo.B "timeline" (or_intror (or_introl eq_refl))
               (init_cleanup _ _)))))))).
Defined.

(** X5: when a restore command fails, the guard raises the exception of
    that command, whether the block returned or raised: an exception of the
    block is lost.  The restore loop failed at one snapshot of the guarded
    list: the calls for the snapshots before it returned, and the trace has
    grown by their commands and by the command that failed, and by no
    command for the snapshots after it. *)
Theorem guard_exit_failure_replaces_outcome
    (E : Env) (A : Type) (self self' : SnapperConfig)
    (snapshots : option (list SnapperSnapshot)) (snaps : list SnapperSnapshot)
    (dryrun : bool) (body : SnapperConfig -> M A) (w w0 w1 w2 w3 : World)
    (r : Result A) (e : Exn) :
  SnapperConfig.guarded E self snapshots w = (Return (self', snaps), w0) ->
  for_each snaps (fun s => SnapperSnapshot.prevent_cleanup E s dryrun) w0 = (Return tt, w1) ->
  body self' w1 = (r, w2) ->
  for_each snaps (fun s => SnapperSnapshot.restore_cleanup_state E s dryrun) w2
    = (Raise e, w3) ->
  SnapperConfig.prevent_cleanup E self snapshots dryrun body w = (Raise e, w3) /\
  exists j s wj,
    snaps !! j = Some s /\
    for_each (take j snaps)
      (fun s => SnapperSnapshot.restore_cleanup_state E s dryrun) w2 = (Return tt, wj) /\
    SnapperSnapshot.restore_cleanup_state E s dryrun wj = (Raise e, w3) /\
    ((j = 0 /\ snapper_version_ok w2 = false /\ w3 = emit (Exec version_cmd) w2) \/
     (dryrun = false /\
      trace w3 = trace w2 ++ gate_events w2 (S j)
                   ++ List.map (fun s => Exec (restore_cmd s)) (take j snaps)
                   ++ [Exec (restore_cmd s)])).
Proof.
  intros Hsel Hentry Hbody Hexit. split.
  - unfold SnapperConfig.prevent_cleanup, bind, ret, try_finally.
    rewrite Hsel. cbn [fst snd]. now rewrite Hentry, Hbody, Hexit.
  - exact (loop_raise_at E dryrun _ _ snaps w2 w3 e Hexit).
Qed.

(** A block that returns, with a tool that fails when the cleanup algorithm
    of [B] is restored: the guard raises the error of the tool, and [C]
    gets no restore command. *)
Lemma guard_exit_failure_replaces_outcome_witness :
  Demo.returning_body Demo.root Demo.entered = (Return 7, Demo.worked) /\
  for_each [Demo.A; Demo.B; Demo.C]
    (fun s => SnapperSnapshot.restore_cleanup_state Demo.tool_failing_on_restore_B s false)
    Demo.worked
    = (Raise (CalledProcessError (restore_cmd Demo.B)), Demo.left_half_restored) /\
  SnapperConfig.prevent_cleanup Demo.tool_failing_on_restore_B Demo.root
    (Some [Demo.A; Demo.B; Demo.C]) false Demo.returning_body Demo.checked
    = (Raise (CalledProcessError (restore_cmd Demo.B)), Demo.left_half_restored) /\
  trace Demo.left_half_restored
    = trace Demo.worked ++ [Exec (restore_cmd Demo.A); Exec (restore_cmd Demo.B)].
Proof.
  assert (H0 : SnapperConfig.guarded Demo.tool_failing_on_restore_B Demo.root
                 (Some [Demo.A; Demo.B; Demo.C]) Demo.checked
               = (Return (Demo.root, [Demo.A; Demo.B; Demo.C]), Demo.checked))
    by reflexivity.
  assert (H1 : for_each [Demo.A; Demo.B; Demo.C]
                 (fun s => SnapperSnapshot.prevent_cleanup Demo.tool_failing_on_restore_B
                             s false) Demo.checked
               = (Return tt, Demo.entered)) by (vm_compute; reflexivity).
  assert (H2 : Demo.returning_body Demo.root Demo.entered = (Return 7, Demo.worked))
    by (vm_compute; reflexivity).
  assert (H3 : for_each [Demo.A; Demo.B; Demo.C]
                 (fun s => SnapperSnapshot.restore_cleanup_state
                             Demo.tool_failing_on_restore_B s false) Demo.worked
               = (Raise (CalledProcessError (restore_cmd Demo.B)),
                  Demo.left_half_restored)) by (vm_compute; reflexivity).
  destruct (guard_exit_failure_replaces_outcome Demo.tool_failing_on_restore_B nat
              Demo.root Demo.root (Some [Demo.A; Demo.B; Demo.C])
              [Demo.A; Demo.B; Demo.C] false Demo.returning_body Demo.checked Demo.checked
              Demo.entered Demo.worked Demo.left_half_restored _ _ H0 H1 H2 H3)
    as (Hr & j & s & wj & Hj & Hpre & Hcall & Hcase).
  refine (conj H2 (conj H3 (conj Hr _))).
  destruct Hcase as [(_ & Hbad & _)|(_ & Ht)]; [vm_compute in Hbad; discriminate Hbad|].
  destruct j as [|[|[|j]]].
  - injection Hj as <-. injection Hpre as <-. vm_compute in Hcall. discriminate Hcall.
  - injection Hj as <-. exact Ht.
  - vm_compute in Hpre. discriminate Hpre.
  - discriminate Hj.
Defined.

(** ** The tag that is stored *)

(** The value [set_backed_up] stores for a snapshot of a local repository. *)
Lemma new_sb_backup_val_local (c : ConfigAttrs) (i : Info) (tag : string) :
  SnapperSnapshot.stored_tag i = tag ->
  PyStr.startswith (repopath (repo c)) "ssh://" = false ->
  SnapperSnapshot.new_sb_backup_val (SnapperSnapshot.init c i) =
  if String.eqb (PyStr.replace "true" "local" tag) "" then "local"
  else PyStr.replace "true" "local" tag +:+ ":local".
Proof. intros <- Hlocal. rewrite new_sb_backup_val_init, Hlocal. reflexivity. Qed.

(** C3, amended: for a snapshot constructed without a tag on a local
    repository, the first [set_backed_up] stores [local], and so does a
    second call on the same object, whose remembered tag is the one read at
    construction: when both calls return, the trace has grown by the same
    command twice, and on a real run the snapshot manager holds the tag
    [local].  It is for a snapshot constructed from the stored tag [local]
    that a call of [set_backed_up] stores [local:local]: a call that returns
    has left the command with that value, and on a real run the snapshot
    manager then holds it. *)
Theorem mark_twice_stores_local
    (E : Env) (c : ConfigAttrs) (i : Info) (dryrun : bool) (w w' : World)
    (s2 : SnapperSnapshot) :
  SnapperSnapshot.stored_tag i = "" ->
  PyStr.startswith (repopath (repo c)) "ssh://" = false ->
  (s1 <- SnapperSnapshot.set_backed_up E (SnapperSnapshot.init c i) dryrun ;;
   SnapperSnapshot.set_backed_up E s1 dryrun) w = (Return s2, w') ->
  trace w' = trace w ++ gate_events w 1 ++
    [ev dryrun (args_new ["modify"; "--userdata"; "snapborg_backup=local";
                          PyStr.of_int (number i)] (Some (name c)));
     ev dryrun (args_new ["modify"; "--userdata"; "snapborg_backup=local";
                          PyStr.of_int (number i)] (Some (name c)))] /\
  (dryrun = false ->
   forall init,
     Store.persisted_tag (trace w') (name c, PyStr.of_int (number i)) init = "local") /\
  SnapperSnapshot.is_backed_up s2 = true /\
  (forall i' w0 w0' s',
     SnapperSnapshot.stored_tag i' = "local" ->
     SnapperSnapshot.set_backed_up E (SnapperSnapshot.init c i') dryrun w0
       = (Return s', w0') ->
     trace w0' = trace w0 ++ gate_events w0 1 ++
       [ev dryrun (args_new ["modify"; "--userdata"; "snapborg_backup=local:local";
                             PyStr.of_int (number i')] (Some (name c)))] /\
     (dryrun = false ->
      forall init,
        Store.persisted_tag (trace w0') (name c, PyStr.of_int (number i')) init
        = "local:local")).
Proof.
  intros Htag Hlocal H. unfold bind at 1 in H.
  destruct (SnapperSnapshot.set_backed_up E _ dryrun w) as [[s1|e] w1] eqn:H1;
    [|discriminate].
  apply set_backed_up_return in H1 as (-> & Ht1 & Hok1).
  apply set_backed_up_return in H as (-> & Ht2 & _).
  rewrite backed_up_cmd_assign, gate_events_checked in Ht2 by assumption.
  assert (Hcmd : backed_up_cmd (SnapperSnapshot.init c i) =
                 modify_cmd (SnapperSnapshot.init c i) "--userdata"
                   ("snapborg_backup=" +:+ "local")).
  { unfold backed_up_cmd. now rewrite (new_sb_backup_val_local c i "" Htag Hlocal). }
  rewrite Hcmd in Ht1, Ht2. cbn [app] in Ht2.
  split; [|split; [|split; [reflexivity|]]].
  - rewrite Ht2, Ht1, <- !app_assoc. reflexivity.
  - intros -> init. rewrite Ht2.
    apply (persisted_tag_last (trace w1) (SnapperSnapshot.init c i) "local").
  - intros i' w0 w0' s' Hi' Hc.
    apply set_backed_up_return in Hc as (_ & Ht & _).
    assert (Hcmd' : backed_up_cmd (SnapperSnapshot.init c i') =
                    modify_cmd (SnapperSnapshot.init c i') "--userdata"
                      ("snapborg_backup=" +:+ "local:local")).
    { unfold backed_up_cmd. now rewrite (new_sb_backup_val_local c i' "local" Hi' Hlocal). }
    rewrite Hcmd' in Ht. split; [exact Ht|].
    intros -> init. rewrite Ht, app_assoc.
    apply (persisted_tag_last _ (SnapperSnapshot.init c i') "local:local").
Qed.

(** A dry run in a process that has not run [snapper] yet: the version
    check, then the same command printed twice; and a real run for a
    snapshot constructed from the tag [local]. *)
Lemma mark_twice_stores_local_witness :
  SnapperSnapshot.stored_tag (Demo.info_of 1 None "number") = "" /\
  PyStr.startswith (repopath (repo Demo.root_local)) "ssh://" = false /\
  (s1 <- SnapperSnapshot.set_backed_up Demo.tool
           (Demo.snap Demo.root_local 1 None "number") true ;;
   SnapperSnapshot.set_backed_up Demo.tool s1 true) Demo.fresh
  = (Return (SnapperSnapshot.assign_is_backed_up
               (Demo.snap Demo.root_local 1 None "number") true),
     {| snapper_version_ok := true;
        trace := [Exec ["snapper"; "--version"];
                  Print ["snapper"; "-c"; "root"; "--jsonout"; "modify"; "--userdata";
                         "snapborg_backup=local"; "1"];
                  Print ["snapper"; "-c"; "root"; "--jsonout"; "modify"; "--userdata";
                         "snapborg_backup=local"; "1"]] |}) /\
  SnapperSnapshot.is_backed_up
    (SnapperSnapshot.assign_is_backed_up (Demo.snap Demo.root_local 1 None "number") true)
  = true.
Proof.
  assert (Htag : SnapperSnapshot.stored_tag (Demo.info_of 1 None "number") = "")
    by reflexivity.
  assert (Hlocal : PyStr.startswith (repopath (repo Demo.root_local)) "ssh://" = false)
    by reflexivity.
  assert (H : (s1 <- SnapperSnapshot.set_backed_up Demo.tool
                       (Demo.snap Demo.root_local 1 None "number") true ;;
               SnapperSnapshot.set_backed_up Demo.tool s1 true) Demo.fresh
              = (Return (SnapperSnapshot.assign_is_backed_up
                           (Demo.snap Demo.root_local 1 None "number") true),
                 {| snapper_version_ok := true;
                    trace := [Exec ["snapper"; "--version"];
                              Print ["snapper"; "-c"; "root"; "--jsonout"; "modify";
                                     "--userdata"; "snapborg_backup=local"; "1"];
                              Print ["snapper"; "-c"; "root"; "--jsonout"; "modify";
                                     "--userdata"; "snapborg_backup=local"; "1"]] |}))
    by (vm_compute; reflexivity).
  exact (conj Htag (conj Hlocal (conj H
           (proj1 (proj2 (proj2 (mark_twice_stores_local Demo.tool Demo.root_local
                                   (Demo.info_of 1 None "number") true Demo.fresh _ _
                                   Htag Hlocal H))))))).
Defined.

(** C9: a snapshot constructed from a record whose userdata is null and one
    constructed from the same record with an empty userdata mapping differ
    in the record they keep and in nothing else; neither counts as backed
    up, whatever the repository is, and the tag both remember is empty.  A
    call of [set_backed_up] on either that returns has set the flag and
    left the command that stores the new token alone; once the version check
    has passed, the call leaves this command whatever the tool answers.
    The call has the same effect on the world and the same outcome for
    both, and the other commands are the same for both. *)
Theorem null_userdata_as_empty
    (E : Env) (c : ConfigAttrs) (n : Z) (d cl : string) (dryrun : bool) (w : World) :
  let i_null := {| number := n; date := d; userdata := None; cleanup := cl |} in
  let i_empty := {| number := n; date := d; userdata := Some ∅; cleanup := cl |} in
  let s_null := SnapperSnapshot.init c i_null in
  let s_empty := SnapperSnapshot.init c i_empty in
  let token_cmd :=
    args_new ["modify"; "--userdata";
              "snapborg_backup=" +:+
                (if PyStr.startswith (repopath (repo c)) "ssh://" then "remote" else "local");
              PyStr.of_int n] (Some (name c)) in
  s_null = {| config := config s_empty; info := i_null;
              _is_remote := _is_remote s_empty; _is_backed_up := _is_backed_up s_empty;
              _existing_backup_val := _existing_backup_val s_empty;
              _cleanup := _cleanup s_empty |} /\
  SnapperSnapshot.is_backed_up s_null = false /\
  SnapperSnapshot.is_backed_up s_empty = false /\
  _existing_backup_val s_null = "" /\
  (forall s' w',
     SnapperSnapshot.set_backed_up E s_null dryrun w = (Return s', w') ->
     s' = SnapperSnapshot.assign_is_backed_up s_null true /\
     SnapperSnapshot.is_backed_up s' = true /\
     trace w' = trace w ++ gate_events w 1 ++ [ev dryrun token_cmd]) /\
  (forall s' w',
     SnapperSnapshot.set_backed_up E s_empty dryrun w = (Return s', w') ->
     s' = SnapperSnapshot.assign_is_backed_up s_empty true /\
     SnapperSnapshot.is_backed_up s' = true /\
     trace w' = trace w ++ gate_events w 1 ++ [ev dryrun token_cmd]) /\
  (snapper_version_ok w = true ->
   snd (SnapperSnapshot.set_backed_up E s_null dryrun w) = emit (ev dryrun token_cmd) w /\
   snd (SnapperSnapshot.set_backed_up E s_empty dryrun w) = emit (ev dryrun token_cmd) w) /\
  (dryrun = false ->
   forall s' w' init,
     SnapperSnapshot.set_backed_up E s_null dryrun w = (Return s', w') ->
     Store.persisted_tag (trace w') (name c, PyStr.of_int n) init
     = if PyStr.startswith (repopath (repo c)) "ssh://" then "remote" else "local") /\
  backed_up_cmd s_null = token_cmd /\
  backed_up_cmd s_empty = backed_up_cmd s_null /\
  snd (SnapperSnapshot.set_backed_up E s_empty dryrun w)
    = snd (SnapperSnapshot.set_backed_up E s_null dryrun w) /\
  fst (SnapperSnapshot.set_backed_up E s_empty dryrun w)
    = match fst (SnapperSnapshot.set_backed_up E s_null dryrun w) with
      | Return _ => Return (SnapperSnapshot.assign_is_backed_up s_empty true)
      | Raise e => Raise e
      end /\
  (purge_cmd s_empty = purge_cmd s_null /\
   disable_cmd s_empty = disable_cmd s_null /\
   restore_cmd s_empty = restore_cmd s_null).
Proof.
  cbv zeta.
  assert (Hcmd : forall u,
            backed_up_cmd (SnapperSnapshot.init c
              {| number := n; date := d; userdata := u; cleanup := cl |}) =
            modify_cmd (SnapperSnapshot.init c
              {| number := n; date := d; userdata := u; cleanup := cl |}) "--userdata"
              ("snapborg_backup=" +:+ SnapperSnapshot.new_sb_backup_val
                 (SnapperSnapshot.init c
                    {| number := n; date := d; userdata := u; cleanup := cl |})))
    by reflexivity.
  split; [reflexivity|].
  split; [now apply init_untagged|].
  split; [now apply init_untagged|].
  split; [reflexivity|].
  split.
  { intros s' w' H. apply set_backed_up_return in H as (-> & Ht & _).
    split; [reflexivity|]. split; [reflexivity|]. exact Ht. }
  split.
  { intros s' w' H. apply set_backed_up_return in H as (-> & Ht & _).
    split; [reflexivity|]. split; [reflexivity|]. exact Ht. }
  split.
  { intros Hok. rewrite !set_backed_up_world. split.
    - now rewrite run_snapper_checked_world.
    - now rewrite run_snapper_checked_world. }
  split.
  { intros -> s' w' init H. apply set_backed_up_return in H as (_ & Ht & _).
    rewrite Ht, app_assoc, Hcmd.
    apply (persisted_tag_last _ (SnapperSnapshot.init c
             {| number := n; date := d; userdata := None; cleanup := cl |})). }
  split; [reflexivity|].
  split; [reflexivity|].
  split; [rewrite !set_backed_up_world; reflexivity|].
  split; [|now repeat split].
  rewrite !set_backed_up_result. cbn [fst].
  change (SnapperSnapshot.new_sb_backup_val (SnapperSnapshot.init c
            {| number := n; date := d; userdata := None; cleanup := cl |}))
    with (SnapperSnapshot.new_sb_backup_val (SnapperSnapshot.init c
            {| number := n; date := d; userdata := Some ∅; cleanup := cl |})).
  now destruct (run_snapper E _ _ dryrun w) as [[r|e] w1].
Qed.
